(** * tau-core: provider strategies, execution client and streaming decode

    A shallow embedding of the Go packages [protocol], [providers],
    [response] and [client] of tau-core, with the properties of the
    retry loop, the backoff computation, the stream decode workers, the
    vision marshaling and the endpoint resolution.

    Conventions of the embedding:
    - a Go [string] is a [string] of bytes; [fmt.Sprintf] with [%s] verbs
      is concatenation and [%d] is the decimal printer [pretty];
    - a Go [map[string]T] is a [gmap string T];
    - a Go [(T, error)] result is a sum [T + error] where the value is
      nil beside an error, and a pair [T * option error] in the retry
      loop, which returns both;
    - [int], [int64] and [time.Duration] are [Z], with the 64-bit
      wrap-around written out where the source computes with them;
    - the caller's [context.Context], the HTTP transport and the random
      source are oracles passed in explicitly. *)

From Stdlib Require Import ZArith Lia Bool List Ascii String PrimFloat.
From stdpp Require Import base option list gmap strings pretty.

Local Open Scope string_scope.
Set Warnings "-register-all".

(* ===================================================================== *)
(** ** Go's [strings] package, as far as the providers use it *)
(* ===================================================================== *)

Module strings.

(** [s[i:j]] on a byte string. *)
Definition slice (s : string) (i j : nat) : string :=
  String.substring i (j - i) s.

(** [len(s) >= len(prefix) && s[:len(prefix)] == prefix] *)
Definition HasPrefix (s pre : string) : bool :=
  (String.length pre <=? String.length s)%nat
  && String.eqb (slice s 0 (String.length pre)) pre.

(** [len(s) >= len(suffix) && s[len(s)-len(suffix):] == suffix] *)
Definition HasSuffix (s suf : string) : bool :=
  (String.length suf <=? String.length s)%nat
  && String.eqb
       (slice s (String.length s - String.length suf) (String.length s))
       suf.

Definition TrimPrefix (s pre : string) : string :=
  if HasPrefix s pre
  then slice s (String.length pre) (String.length s)
  else s.

Definition TrimSuffix (s suf : string) : string :=
  if HasSuffix s suf
  then slice s 0 (String.length s - String.length suf)
  else s.

(** [CutPrefix] returns the rest and whether the prefix was found. *)
Definition CutPrefix (s pre : string) : string * bool :=
  if HasPrefix s pre
  then (slice s (String.length pre) (String.length s), true)
  else (s, false).

Definition byte (n : nat) : string := String (ascii_of_nat n) EmptyString.

(** The encodings of the code points with Unicode's White_Space
    property, which is what [unicode.IsSpace] tests: the six ASCII
    ones, U+0085, U+00A0, U+1680, U+2000..U+200A, U+2028, U+2029,
    U+202F, U+205F and U+3000 in UTF-8. *)
Definition spaces : list string :=
  [ byte 9; byte 10; byte 11; byte 12; byte 13; byte 32;
    byte 194 +:+ byte 133; byte 194 +:+ byte 160;
    byte 225 +:+ byte 154 +:+ byte 128 ]
  ++ map (fun k => byte 226 +:+ byte 128 +:+ byte (128 + k)) (seq 0 11)
  ++ [ byte 226 +:+ byte 128 +:+ byte 168;
       byte 226 +:+ byte 128 +:+ byte 169;
       byte 226 +:+ byte 128 +:+ byte 175;
       byte 226 +:+ byte 129 +:+ byte 159;
       byte 227 +:+ byte 128 +:+ byte 128 ].

(** The leading white-space rune of [s], if it has one. *)
Definition leadingSpace (s : string) : option string :=
  List.find (HasPrefix s) spaces.

Definition trailingSpace (s : string) : option string :=
  List.find (HasSuffix s) spaces.

Fixpoint trimLeft (fuel : nat) (s : string) : string :=
  match fuel with
  | O => s
  | S fuel' =>
      match leadingSpace s with
      | Some sp => trimLeft fuel' (slice s (String.length sp) (String.length s))
      | None => s
      end
  end.

Fixpoint trimRight (fuel : nat) (s : string) : string :=
  match fuel with
  | O => s
  | S fuel' =>
      match trailingSpace s with
      | Some sp => trimRight fuel' (slice s 0 (String.length s - String.length sp))
      | None => s
      end
  end.

(** [strings.TrimSpace]: every rune removed is at least one byte long,
    so [length s] rounds suffice on each side. *)
Definition TrimSpace (s : string) : string :=
  let l := trimLeft (String.length s) s in
  trimRight (String.length l) l.

End strings.

(* ===================================================================== *)
(** ** Package [protocol] *)
(* ===================================================================== *)

Module protocol.

(** [type Protocol string] *)
Definition Protocol := string.

Definition Chat : Protocol := "chat".
Definition Vision : Protocol := "vision".
Definition Tools : Protocol := "tools".
Definition Embeddings : Protocol := "embeddings".

Definition IsValid (p : string) : bool :=
  if decide (p = Chat) then true
  else if decide (p = Vision) then true
  else if decide (p = Tools) then true
  else if decide (p = Embeddings) then true
  else false.

Definition ValidProtocols : list Protocol := [Chat; Vision; Tools; Embeddings].

Definition SupportsStreaming (p : Protocol) : bool :=
  if decide (p = Chat) then true
  else if decide (p = Vision) then true
  else if decide (p = Tools) then true
  else if decide (p = Embeddings) then false
  else false.

End protocol.

(* ===================================================================== *)
(** ** Go values and their JSON encoding *)
(* ===================================================================== *)

Module gojson.

(** The dynamic values ([any]) that reach the marshaling code: strings,
    integers, booleans, [nil], slices, [map[string]any] and the
    [protocol.Message] struct.  Numbers are kept integral. *)
Inductive any : Type :=
| Nil
| Bool (b : bool)
| Int (z : Z)
| Str (s : string)
| Slice (l : list any)
| Map (m : gmap string any)
| Struct_Message (Role : string) (Content : any).

(** A JSON document.  An object is a finite map: [encoding/json] writes
    the keys of a Go map sorted and once each. *)
Inductive json : Type :=
| JNull
| JBool (b : bool)
| JNum (z : Z)
| JString (s : string)
| JArray (l : list json)
| JObject (m : gmap string json).

(** [json.Marshal], up to the printing of the document.  [Message]
    carries the field tags [role] and [content]. *)
Fixpoint Marshal (v : any) : json :=
  match v with
  | Nil => JNull
  | Bool b => JBool b
  | Int z => JNum z
  | Str s => JString s
  | Slice l => JArray (map Marshal l)
  | Map m => JObject (Marshal <$> m)
  | Struct_Message r c =>
      JObject (<["role" := JString r]> (<["content" := Marshal c]> ∅))
  end.

End gojson.

(* ===================================================================== *)
(** ** Go errors *)
(* ===================================================================== *)

Module errors.

(** The error values the client meets.  An [error] is an interface in
    Go; here it is the closed type of the kinds the classifier of the
    retry loop distinguishes, plus [fmt.Errorf] with and without [%w].
    [OpError], [URLError] and [Wrapf] have an [Unwrap] method. *)
Inductive error : Type :=
| Canceled                                        (* context.Canceled *)
| DeadlineExceeded                                (* context.DeadlineExceeded *)
| EOF                                             (* io.EOF *)
| HTTPStatusError (StatusCode : Z) (Status Body : string)
| OpError (Op : string) (Err : error)             (* *net.OpError *)
| DNSError (Msg : string) (IsTimeout IsTemporary : bool)  (* *net.DNSError, a leaf *)
| URLError (Op URL : string) (Err : error)        (* *url.Error *)
| Wrapf (msg : string) (Err : error)              (* fmt.Errorf("msg: %w", Err) *)
| Errorf (msg : string).                          (* fmt.Errorf / errors.New *)

Definition Unwrap (e : error) : option error :=
  match e with
  | OpError _ e' | URLError _ _ e' | Wrapf _ e' => Some e'
  | _ => None
  end.

(** The sentinel comparison [err == target] of [errors.Is]. *)
Definition same (e target : error) : bool :=
  match e, target with
  | Canceled, Canceled => true
  | DeadlineExceeded, DeadlineExceeded => true
  | EOF, EOF => true
  | _, _ => false
  end.

(** [errors.Is]: some error of the [Unwrap] chain is the target. *)
Fixpoint Is (e target : error) : bool :=
  same e target ||
  match e with
  | OpError _ e' | URLError _ _ e' | Wrapf _ e' => Is e' target
  | _ => false
  end.

(** [errors.As] with a [*HTTPStatusError] target: the first one of the
    chain, as its status code. *)
Fixpoint As_HTTPStatusError (e : error) : option Z :=
  match e with
  | HTTPStatusError code _ _ => Some code
  | OpError _ e' | URLError _ _ e' | Wrapf _ e' => As_HTTPStatusError e'
  | _ => None
  end.

Fixpoint As_OpError (e : error) : bool :=
  match e with
  | OpError _ _ => true
  | URLError _ _ e' | Wrapf _ e' => As_OpError e'
  | _ => false
  end.

(** [errors.As] with a [*net.DNSError] target, as the pair of its
    [Temporary()] and [Timeout()] answers. *)
Fixpoint As_DNSError (e : error) : option (bool * bool) :=
  match e with
  | DNSError _ tmo tmp => Some (tmo || tmp, tmo)
  | OpError _ e' | URLError _ _ e' | Wrapf _ e' => As_DNSError e'
  | _ => None
  end.

(** [errors.As] with a [*url.Error] target: its [Err] field. *)
Fixpoint As_URLError (e : error) : option error :=
  match e with
  | URLError _ _ inner => Some inner
  | OpError _ e' | Wrapf _ e' => As_URLError e'
  | _ => None
  end.

(** The [Error()] string. *)
Fixpoint Error (e : error) : string :=
  match e with
  | Canceled => "context canceled"
  | DeadlineExceeded => "context deadline exceeded"
  | EOF => "EOF"
  | HTTPStatusError code status body =>
      if (0 <? String.length body)%nat
      then "HTTP " +:+ pretty code +:+ ": " +:+ status +:+ " - " +:+ body
      else "HTTP " +:+ pretty code +:+ ": " +:+ status
  | OpError op e' => op +:+ ": " +:+ Error e'
  | DNSError msg _ _ => "lookup: " +:+ msg
  | URLError op url e' => op +:+ " " +:+ url +:+ ": " +:+ Error e'
  | Wrapf msg e' => msg +:+ ": " +:+ Error e'
  | Errorf msg => msg
  end.

End errors.
Export errors.

(* ===================================================================== *)
(** ** Package [response] *)
(* ===================================================================== *)

Module response.
Import protocol gojson.

Record Choice := {
  Index : Z;
  Delta_Role : string;
  Delta_Content : string;
  FinishReason : option string
}.

Record StreamingChunk := {
  ID : string;
  Object : string;
  Created : Z;
  Model : string;
  Choices : list Choice;
  Error : option error
}.

(** [&response.StreamingChunk{Error: err}] *)
Definition errorChunk (e : error) : StreamingChunk :=
  {| ID := ""; Object := ""; Created := 0; Model := ""; Choices := [];
     Error := Some e |}.

Definition Content (c : StreamingChunk) : string :=
  match Choices c with
  | ch :: _ => Delta_Content ch
  | [] => ""
  end.

(** [encoding/json]'s [Unmarshal] into the response structs is the
    standard library's; the decoders below take it as given. *)
Class Unmarshaler := {
  Unmarshal_StreamingChunk : string -> StreamingChunk + error;
  Unmarshal_Response : Protocol -> string -> any + error
}.

Section Parse.
Context `{Unmarshaler}.

Definition ParseChatStreamChunk (data : string) : StreamingChunk + error :=
  match Unmarshal_StreamingChunk data with
  | inr e => inr (Wrapf "failed to parse streaming chunk" e)
  | inl chunk => inl chunk
  end.

Definition ParseVisionStreamChunk (data : string) : StreamingChunk + error :=
  ParseChatStreamChunk data.

Definition ParseToolsStreamChunk (data : string) : StreamingChunk + error :=
  match Unmarshal_StreamingChunk data with
  | inr e => inr (Wrapf "failed to parse tools streaming chunk" e)
  | inl chunk => inl chunk
  end.

Definition ParseStreamChunk (p : Protocol) (data : string)
  : StreamingChunk + error :=
  if decide (p = Chat) then ParseChatStreamChunk data
  else if decide (p = Vision) then ParseVisionStreamChunk data
  else if decide (p = Tools) then ParseToolsStreamChunk data
  else if decide (p = Embeddings)
       then inr (Errorf ("protocol " +:+ p +:+ " does not support streaming"))
  else inr (Errorf ("unsupported protocol: " +:+ p)).

(** [Parse]: the four decoders differ in the struct they fill. *)
Definition Parse (p : Protocol) (body : string) : any + error :=
  if decide (p = Chat) then Unmarshal_Response Chat body
  else if decide (p = Vision) then Unmarshal_Response Vision body
  else if decide (p = Tools) then Unmarshal_Response Tools body
  else if decide (p = Embeddings) then Unmarshal_Response Embeddings body
  else inr (Errorf ("unsupported protocol: " +:+ p)).
End Parse.

End response.

(* ===================================================================== *)
(** ** [net/http] and [context], as the client sees them *)
(* ===================================================================== *)

Module http.

Definition StatusOK : Z := 200.

(** A response body: the bytes that can be read, and what the reader
    reports once they are exhausted ([None] is [io.EOF]). *)
Record Body := {
  data : string;
  readErr : option error
}.

Record Response := {
  StatusCode : Z;
  Status : string;
  RespBody : Body
}.

(** The request body is the JSON document the provider marshaled. *)
Record Request := {
  Method : string;
  URL : string;
  Header : gmap string string;
  ReqBody : gojson.json
}.

(** [req.Header.Set(key, value)] *)
Definition Header_Set (req : Request) (key value : string) : Request :=
  {| Method := Method req; URL := URL req;
     Header := <[key := value]> (Header req); ReqBody := ReqBody req |}.

(** [io.ReadAll] returns what it read and the error, [nil] at EOF. *)
Definition ReadAll (b : Body) : string * option error :=
  (data b, readErr b).

(** [line] is the bytes read since the last delimiter, oldest last. *)
Fixpoint readLinesFrom (line : string) (s : string) : list string * string :=
  match s with
  | EmptyString => ([], line)
  | String c rest =>
      if Ascii.eqb c "010"%char
      then let '(ls, r) := readLinesFrom EmptyString rest in
           ((line +:+ String c EmptyString) :: ls, r)
      else readLinesFrom (line +:+ String c EmptyString) rest
  end.

(** The successive results of [reader.ReadString('\n')] on a body: the
    lines that end in the delimiter (which they keep), and the bytes
    after the last delimiter, returned together with the read error. *)
Definition readLines (s : string) : list string * string :=
  readLinesFrom EmptyString s.

End http.

(* ===================================================================== *)
(** ** [context.Context] *)
(* ===================================================================== *)

Module context.

(** What the code observes of the caller's context, at each place it
    looks: [ctx.Err()] before attempt [k] of the retry loop, whether
    [ctx.Done()] fires during the backoff wait after attempt [k] (and
    with which [ctx.Err()]), and whether the [ctx.Done()] case is the
    one taken by the [select] of the [k]-th send of a stream worker or
    of the client's forwarding goroutine. *)
Record Context := {
  ErrBefore : nat -> option error;
  DoneInBackoff : nat -> option error;
  DoneAtSend : nat -> bool;
  DoneAtForward : nat -> bool
}.

(** [context.Background()] is never done. *)
Definition Background : Context :=
  {| ErrBefore := fun _ => None; DoneInBackoff := fun _ => None;
     DoneAtSend := fun _ => false; DoneAtForward := fun _ => false |}.

End context.

(* ===================================================================== *)
(** ** Package [providers] *)
(* ===================================================================== *)

Module providers.
Import strings protocol gojson response context.

(** [protocol.Message] *)
Record Message := {
  Role : string;
  Content : any
}.

Definition NewMessage (role : string) (content : any) : Message :=
  {| Role := role; Content := content |}.

(** A [[]protocol.Message] is a reference to a backing array; two
    slices with the same reference alias.  [heap] holds the arrays. *)
Abbreviation ref := nat.
Abbreviation heap := (gmap nat (list Message)).

Definition deref (h : heap) (p : ref) : list Message := default [] (h !! p).

(** [make([]protocol.Message, n)]: a fresh array of zero values. *)
Definition make (h : heap) (n : nat) : ref * heap :=
  let p := fresh (dom h) in
  (p, <[p := replicate n (NewMessage "" Nil)]> h).

(** [copy(dst, src)] copies [min(len(dst), len(src))] elements. *)
Definition copy (h : heap) (dst src : ref) : heap :=
  let d := deref h dst in
  let s := deref h src in
  <[dst := (take (List.length d) s ++ drop (List.length s) d)%list]> h.

(** [s[i] = m]; the index is in range at the one place it is used. *)
Definition store (h : heap) (p : ref) (i : nat) (m : Message) : heap :=
  <[p := <[i := m]> (deref h p)]> h.

(** [maps.Copy(dst, src)]: the entries of [src] overwrite [dst]'s. *)
Definition maps_Copy {V} (dst src : gmap string V) : gmap string V := src ∪ dst.

Definition any_of_Message (m : Message) : any :=
  Struct_Message (Role m) (Content m).

Record ChatData := {
  Chat_Model : string;
  Chat_Messages : ref;
  Chat_Options : gmap string any
}.

(** A [nil] [VisionOptions] is [None]. *)
Record VisionData := {
  Model : string;
  Messages : ref;
  Images : list string;
  VisionOptions : option (gmap string any);
  Options : gmap string any
}.

Record ToolDefinition := {
  Tool_Name : string;
  Tool_Description : string;
  Tool_Parameters : gmap string any
}.

Record ToolsData := {
  Tools_Model : string;
  Tools_Messages : ref;
  Tools_Tools : list ToolDefinition;
  Tools_Options : gmap string any
}.

Record EmbeddingsData := {
  Emb_Model : string;
  Emb_Input : any;
  Emb_Options : gmap string any
}.

(** The [data any] argument of [Marshal], by dynamic type. *)
Inductive Data :=
| PChatData (d : ChatData)
| PVisionData (d : VisionData)
| PToolsData (d : ToolsData)
| PEmbeddingsData (d : EmbeddingsData)
| OtherData (typeName : string).

Definition typeName (d : Data) : string :=
  match d with
  | PChatData _ => "*providers.ChatData"
  | PVisionData _ => "*providers.VisionData"
  | PToolsData _ => "*providers.ToolsData"
  | PEmbeddingsData _ => "*providers.EmbeddingsData"
  | OtherData n => n
  end.

Record BaseProvider := {
  name : string;
  baseURL : string
}.

Definition NewBaseProvider (name baseURL : string) : BaseProvider :=
  {| name := name; baseURL := baseURL |}.

Definition marshalChat (h : heap) (data : Data) : (json + error) * heap :=
  match data with
  | PChatData d =>
      let combined : gmap string any := ∅ in
      let combined := <["model" := Str (Chat_Model d)]> combined in
      let combined :=
        <["messages" := Slice (any_of_Message <$> deref h (Chat_Messages d))]>
          combined in
      let combined := maps_Copy combined (Chat_Options d) in
      (inl (Marshal (Map combined)), h)
  | _ => (inr (Errorf ("expected *ChatData, got " +:+ typeName data)), h)
  end.

(** The loop over [d.Images] of [marshalVision]. *)
Definition imageBlock (vo : option (gmap string any)) (imgURL : string) : any :=
  let imageURL : gmap string any := <["url" := Str imgURL]> ∅ in
  let imageURL :=
    match vo with
    | Some o => maps_Copy imageURL o
    | None => imageURL
    end in
  Map (<["type" := Str "image_url"]> (<["image_url" := Map imageURL]> ∅)).

Definition textBlock (textContent : string) : any :=
  Map (<["type" := Str "text"]> (<["text" := Str textContent]> ∅)).

Definition marshalVision (h : heap) (data : Data) : (json + error) * heap :=
  match data with
  | PVisionData d =>
      let messages := deref h (Messages d) in
      if (List.length messages =? 0)%nat then
        (inr (Errorf "messages cannot be empty for vision requests"), h)
      else if (List.length (Images d) =? 0)%nat then
        (inr (Errorf "images cannot be empty for vision requests"), h)
      else
        let lastIdx := (List.length messages - 1)%nat in
        match messages !! lastIdx with
        | None => (* not reached: the slice is not empty *)
            (inr (Errorf "index out of range"), h)
        | Some message =>
            match Content message with
            | Str textContent =>
                let content :=
                  ([textBlock textContent]
                   ++ map (imageBlock (VisionOptions d)) (Images d))%list in
                let '(transformedMessages, h) := make h (List.length messages) in
                let h := copy h transformedMessages (Messages d) in
                let h :=
                  store h transformedMessages lastIdx
                    {| Role := Role message; Content := Slice content |} in
                let combined : gmap string any := ∅ in
                let combined := <["model" := Str (Model d)]> combined in
                let combined :=
                  <["messages" :=
                      Slice (any_of_Message <$> deref h transformedMessages)]>
                    combined in
                let combined := maps_Copy combined (Options d) in
                (inl (Marshal (Map combined)), h)
            | _ =>
                (inr (Errorf
                   "message content must be a string for vision transformation"),
                 h)
            end
        end
  | _ => (inr (Errorf ("expected *VisionData, got " +:+ typeName data)), h)
  end.

Definition openAITool (tool : ToolDefinition) : any :=
  Map (<["type" := Str "function"]>
       (<["function" :=
            Map (<["name" := Str (Tool_Name tool)]>
                 (<["description" := Str (Tool_Description tool)]>
                  (<["parameters" := Map (Tool_Parameters tool)]> ∅)))]> ∅)).

Definition marshalTools (h : heap) (data : Data) : (json + error) * heap :=
  match data with
  | PToolsData d =>
      let combined : gmap string any := ∅ in
      let combined := <["model" := Str (Tools_Model d)]> combined in
      let combined :=
        <["messages" := Slice (any_of_Message <$> deref h (Tools_Messages d))]>
          combined in
      let combined :=
        <["tools" := Slice (map openAITool (Tools_Tools d))]> combined in
      let combined := maps_Copy combined (Tools_Options d) in
      (inl (Marshal (Map combined)), h)
  | _ => (inr (Errorf ("expected *ToolsData, got " +:+ typeName data)), h)
  end.

Definition marshalEmbeddings (h : heap) (data : Data) : (json + error) * heap :=
  match data with
  | PEmbeddingsData d =>
      let combined : gmap string any := ∅ in
      let combined := <["model" := Str (Emb_Model d)]> combined in
      let combined := <["input" := Emb_Input d]> combined in
      let combined := maps_Copy combined (Emb_Options d) in
      (inl (Marshal (Map combined)), h)
  | _ => (inr (Errorf ("expected *EmbeddingsData, got " +:+ typeName data)), h)
  end.

(** [Marshal] of the base provider. *)
Definition Marshal (proto : Protocol) (h : heap) (data : Data)
  : (json + error) * heap :=
  if decide (proto = Chat) then marshalChat h data
  else if decide (proto = Vision) then marshalVision h data
  else if decide (proto = Tools) then marshalTools h data
  else if decide (proto = Embeddings) then marshalEmbeddings h data
  else (inr (Errorf ("unsupported protocol: " +:+ proto)), h).

(** [providers.Request] *)
Record Request := {
  URL : string;
  Headers : gmap string string;
  Body : json
}.

(** Why a stream worker returned. *)
Inductive Exit :=
| ExitEOF          (* the body ended *)
| ExitDone         (* the termination marker was read *)
| ExitReadError    (* a hard read error, after the error chunk *)
| ExitCancelled.   (* [ctx.Done()] won a [select] *)

(** What a consumer receives from the worker's channel before it is
    closed ([defer close(output)] runs on every return), and why the
    worker returned. *)
Record Stream := {
  received : list StreamingChunk;
  exit : Exit
}.

Definition push (c : StreamingChunk) (s : Stream) : Stream :=
  {| received := c :: received s; exit := exit s |}.

Definition closed (e : Exit) : Stream := {| received := []; exit := e |}.

(** The [Provider] interface. *)
Record Provider := {
  Name : string;
  BaseURL : string;
  Endpoint : Protocol -> string + error;
  SetHeaders : http.Request -> http.Request;
  Provider_Marshal : Protocol -> heap -> Data -> (json + error) * heap;
  PrepareRequest : Protocol -> json -> gmap string string -> Request + error;
  PrepareStreamRequest : Protocol -> json -> gmap string string -> Request + error;
  ProcessResponse : http.Response -> Protocol -> any + error;
  ProcessStreamResponse : Context -> http.Response -> Protocol -> Stream + error
}.

Record ProviderConfig := {
  Cfg_Name : string;
  Cfg_BaseURL : string;
  Cfg_Options : gmap string any
}.

Section Backends.
Context `{Unmarshaler}.

(** [select { case output <- c: ...; case <-ctx.Done(): return }] at
    the [k]-th send. *)
Definition send (ctx : Context) (k : nat) (c : StreamingChunk)
    (continue : Stream) : Stream :=
  if DoneAtSend ctx k then closed ExitCancelled else push c continue.

(** The end of the body: [ReadString] returns the bytes after the
    last delimiter with [io.EOF], on which the loop breaks, or with
    the read error, which is sent as a chunk. *)
Definition endOfBody (ctx : Context) (k : nat) (err : option error) : Stream :=
  match err with
  | None => closed ExitEOF
  | Some e =>
      if DoneAtSend ctx k then closed ExitCancelled
      else push (errorChunk e) (closed ExitReadError)
  end.

(* ----------------------------------------------------------------- *)
(** *** Ollama *)

Record OllamaProvider := {
  Ollama_Base : BaseProvider;
  Ollama_options : gmap string any
}.

Definition Ollama_endpoints : gmap Protocol string :=
  <[Chat := "/chat/completions"]>
  (<[Vision := "/chat/completions"]>
   (<[Tools := "/chat/completions"]>
    (<[Embeddings := "/embeddings"]> ∅))).

Definition Ollama_Endpoint (p : OllamaProvider) (proto : Protocol)
  : string + error :=
  match Ollama_endpoints !! proto with
  | None => inr (Errorf ("protocol " +:+ proto +:+ " not supported by Ollama"))
  | Some endpoint => inl (baseURL (Ollama_Base p) +:+ endpoint)
  end.

Definition Ollama_PrepareRequest (p : OllamaProvider) (proto : Protocol)
    (body : json) (headers : gmap string string) : Request + error :=
  match Ollama_Endpoint p proto with
  | inr err => inr err
  | inl endpoint => inl {| URL := endpoint; Headers := headers; Body := body |}
  end.

Definition streamHeaders (headers : gmap string string) : gmap string string :=
  let streamHeaders := maps_Copy ∅ headers in
  let streamHeaders := <["Accept" := "text/event-stream"]> streamHeaders in
  <["Cache-Control" := "no-cache"]> streamHeaders.

Definition Ollama_PrepareStreamRequest (p : OllamaProvider) (proto : Protocol)
    (body : json) (headers : gmap string string) : Request + error :=
  match Ollama_Endpoint p proto with
  | inr err => inr err
  | inl endpoint =>
      inl {| URL := endpoint; Headers := streamHeaders headers; Body := body |}
  end.

Definition processResponse (resp : http.Response) (proto : Protocol)
  : any + error :=
  if negb (http.StatusCode resp =? http.StatusOK)%Z then
    let '(body, _) := http.ReadAll (http.RespBody resp) in
    inr (Errorf ("request failed with status "
                 +:+ pretty (http.StatusCode resp) +:+ ": " +:+ body))
  else
    match http.ReadAll (http.RespBody resp) with
    | (_, Some err) => inr (Wrapf "failed to read response" err)
    | (body, None) => Parse proto body
    end.

(** The loop of the Ollama decode worker over the lines read;
    [k] counts the sends made so far. *)
Fixpoint Ollama_worker (ctx : Context) (proto : Protocol)
    (lines : list string) (err : option error) (k : nat) : Stream :=
  match lines with
  | [] => endOfBody ctx k err
  | line :: rest =>
      let line := TrimSpace line in
      if String.eqb line "" then Ollama_worker ctx proto rest err k
      else if String.eqb line "data: [DONE]" then closed ExitDone
      else
        let line :=
          match CutPrefix line "data: " with
          | (after, true) => after
          | (_, false) => line
          end in
        match ParseStreamChunk proto line with
        | inr _ => Ollama_worker ctx proto rest err k
        | inl chunk =>
            send ctx k chunk (Ollama_worker ctx proto rest err (S k))
        end
  end.

Definition Ollama_ProcessStreamResponse (ctx : Context)
    (resp : http.Response) (proto : Protocol) : Stream + error :=
  if negb (http.StatusCode resp =? http.StatusOK)%Z then
    inr (Errorf ("request failed with status " +:+ pretty (http.StatusCode resp)))
  else
    let body := http.RespBody resp in
    inl (Ollama_worker ctx proto (http.readLines (http.data body)).1
           (http.readErr body) 0).

Definition Ollama_SetHeaders (p : OllamaProvider) (req : http.Request)
  : http.Request :=
  match Ollama_options p !! "auth_type" with
  | Some (Str authType) =>
      match Ollama_options p !! "token" with
      | Some (Str token) =>
          if String.eqb token "" then req
          else if String.eqb authType "bearer" then
            http.Header_Set req "Authorization" ("Bearer " +:+ token)
          else if String.eqb authType "api_key" then
            let headerName :=
              match Ollama_options p !! "auth_header" with
              | Some (Str head) => if String.eqb head "" then "X-API-Key" else head
              | _ => "X-API-Key"
              end in
            http.Header_Set req headerName token
          else req
      | _ => req
      end
  | _ => req
  end.

Definition Ollama (p : OllamaProvider) : Provider :=
  {| Name := name (Ollama_Base p);
     BaseURL := baseURL (Ollama_Base p);
     Endpoint := Ollama_Endpoint p;
     SetHeaders := Ollama_SetHeaders p;
     Provider_Marshal := Marshal;
     PrepareRequest := Ollama_PrepareRequest p;
     PrepareStreamRequest := Ollama_PrepareStreamRequest p;
     ProcessResponse := processResponse;
     ProcessStreamResponse := Ollama_ProcessStreamResponse |}.

Definition NewOllama (c : ProviderConfig) : Provider + error :=
  let baseURL := Cfg_BaseURL c in
  let baseURL :=
    if negb (HasSuffix baseURL "/v1")
    then TrimSuffix baseURL "/" +:+ "/v1"
    else baseURL in
  inl (Ollama {| Ollama_Base := NewBaseProvider (Cfg_Name c) baseURL;
                 Ollama_options := Cfg_Options c |}).

(* ----------------------------------------------------------------- *)
(** *** Azure *)

Record AzureProvider := {
  Azure_Base : BaseProvider;
  deployment : string;
  authType : string;
  token : string;
  apiVersion : string
}.

Definition Azure_endpoints (basePath : string) : gmap Protocol string :=
  <[Chat := basePath +:+ "/chat/completions"]>
  (<[Vision := basePath +:+ "/chat/completions"]>
   (<[Tools := basePath +:+ "/chat/completions"]>
    (<[Embeddings := basePath +:+ "/embeddings"]> ∅))).

Definition Azure_Endpoint (p : AzureProvider) (proto : Protocol)
  : string + error :=
  let basePath := "/deployments/" +:+ deployment p in
  match Azure_endpoints basePath !! proto with
  | None => inr (Errorf ("protocol " +:+ proto +:+ " not supported by Azure"))
  | Some endpoint =>
      inl (baseURL (Azure_Base p) +:+ endpoint
           +:+ "?api-version=" +:+ apiVersion p)
  end.

Definition Azure_PrepareRequest (p : AzureProvider) (proto : Protocol)
    (body : json) (headers : gmap string string) : Request + error :=
  match Azure_Endpoint p proto with
  | inr err => inr err
  | inl endpoint => inl {| URL := endpoint; Headers := headers; Body := body |}
  end.

Definition Azure_PrepareStreamRequest (p : AzureProvider) (proto : Protocol)
    (body : json) (headers : gmap string string) : Request + error :=
  match Azure_Endpoint p proto with
  | inr err => inr err
  | inl endpoint =>
      inl {| URL := endpoint; Headers := streamHeaders headers; Body := body |}
  end.

(** The loop of the Azure decode worker. *)
Fixpoint Azure_worker (ctx : Context) (proto : Protocol)
    (lines : list string) (err : option error) (k : nat) : Stream :=
  match lines with
  | [] => endOfBody ctx k err
  | line :: rest =>
      let line := TrimSpace line in
      if String.eqb line "" then Azure_worker ctx proto rest err k
      else if negb (HasPrefix line "data: ") then Azure_worker ctx proto rest err k
      else
        let data := TrimPrefix line "data: " in
        if String.eqb data "[DONE]" then closed ExitDone
        else
          match ParseStreamChunk proto data with
          | inr _ => Azure_worker ctx proto rest err k
          | inl chunk =>
              send ctx k chunk (Azure_worker ctx proto rest err (S k))
          end
  end.

Definition Azure_ProcessStreamResponse (ctx : Context)
    (resp : http.Response) (proto : Protocol) : Stream + error :=
  if negb (http.StatusCode resp =? http.StatusOK)%Z then
    inr (Errorf ("request failed with status " +:+ pretty (http.StatusCode resp)))
  else
    let body := http.RespBody resp in
    inl (Azure_worker ctx proto (http.readLines (http.data body)).1
           (http.readErr body) 0).

Definition Azure_SetHeaders (p : AzureProvider) (req : http.Request)
  : http.Request :=
  if String.eqb (authType p) "api_key" then
    if negb (String.eqb (token p) "")
    then http.Header_Set req "api-key" (token p) else req
  else if String.eqb (authType p) "bearer" then
    if negb (String.eqb (token p) "")
    then http.Header_Set req "Authorization" ("Bearer " +:+ token p) else req
  else req.

Definition Azure (p : AzureProvider) : Provider :=
  {| Name := name (Azure_Base p);
     BaseURL := baseURL (Azure_Base p);
     Endpoint := Azure_Endpoint p;
     SetHeaders := Azure_SetHeaders p;
     Provider_Marshal := Marshal;
     PrepareRequest := Azure_PrepareRequest p;
     PrepareStreamRequest := Azure_PrepareStreamRequest p;
     ProcessResponse := processResponse;
     ProcessStreamResponse := Azure_ProcessStreamResponse |}.

(** [c.Options[key].(string)], refused when absent, not a string or
    empty. *)
Definition requiredOption (c : ProviderConfig) (key : string) : string + error :=
  match Cfg_Options c !! key with
  | Some (Str v) =>
      if String.eqb v ""
      then inr (Errorf (key +:+ " is required for Azure provider"))
      else inl v
  | _ => inr (Errorf (key +:+ " is required for Azure provider"))
  end.

Definition NewAzure (c : ProviderConfig) : Provider + error :=
  match requiredOption c "deployment" with
  | inr e => inr e
  | inl deployment =>
  match requiredOption c "auth_type" with
  | inr e => inr e
  | inl authType =>
  match requiredOption c "token" with
  | inr e => inr e
  | inl token =>
  match requiredOption c "api_version" with
  | inr e => inr e
  | inl apiVersion =>
      inl (Azure {| Azure_Base := NewBaseProvider (Cfg_Name c) (Cfg_BaseURL c);
                    deployment := deployment; authType := authType;
                    token := token; apiVersion := apiVersion |})
  end end end end.

End Backends.

End providers.

(* ===================================================================== *)
(** ** Package [config] *)
(* ===================================================================== *)

Module config.

(** [RetryConfig]; durations are nanoseconds.  The [BackoffMultiplier]
    field is a float the client never reads and is left out. *)
Record RetryConfig := {
  MaxRetries : Z;
  InitialBackoff : Z;
  MaxBackoff : Z;
  Jitter : bool
}.

Record ClientConfig := {
  Timeout : Z;
  Retry : RetryConfig;
  ConnectionPoolSize : Z;
  ConnectionTimeout : Z
}.

Definition Second : Z := 1000000000.
Definition Minute : Z := 60 * Second.

Definition DefaultRetryConfig : RetryConfig :=
  {| MaxRetries := 3; InitialBackoff := Second; MaxBackoff := 30 * Second;
     Jitter := true |}.

Definition DefaultClientConfig : ClientConfig :=
  {| Timeout := 2 * Minute; Retry := DefaultRetryConfig;
     ConnectionPoolSize := 10; ConnectionTimeout := 30 * Second |}.

End config.

(* ===================================================================== *)
(** ** Package [request] *)
(* ===================================================================== *)

Module request.
Import protocol gojson providers.

(** The [Request] interface.  [Marshal] reads the message slices it
    was built from, hence the heap. *)
Record Request := {
  Protocol : protocol.Protocol;
  Headers : gmap string string;
  Marshal : heap -> (json + error) * heap;
  Provider : providers.Provider;
  Model : string
}.

Definition jsonHeaders : gmap string string :=
  <["Content-Type" := "application/json"]> ∅.

Definition NewChat (p : providers.Provider) (m : string) (messages : ref)
    (opts : gmap string any) : Request :=
  {| Protocol := Chat; Headers := jsonHeaders;
     Marshal := fun h =>
       Provider_Marshal p Chat h
         (PChatData {| Chat_Model := m; Chat_Messages := messages;
                       Chat_Options := opts |});
     Provider := p; Model := m |}.

Definition NewVision (p : providers.Provider) (m : string) (messages : ref)
    (images : list string) (visionOpts : option (gmap string any))
    (opts : gmap string any) : Request :=
  {| Protocol := Vision; Headers := jsonHeaders;
     Marshal := fun h =>
       Provider_Marshal p Vision h
         (PVisionData {| providers.Model := m; Messages := messages;
                         Images := images; VisionOptions := visionOpts;
                         Options := opts |});
     Provider := p; Model := m |}.

Definition NewEmbeddings (p : providers.Provider) (m : string) (input : any)
    (opts : gmap string any) : Request :=
  {| Protocol := Embeddings; Headers := jsonHeaders;
     Marshal := fun h =>
       Provider_Marshal p Embeddings h
         (PEmbeddingsData {| Emb_Model := m; Emb_Input := input;
                             Emb_Options := opts |});
     Provider := p; Model := m |}.

Definition NewTools (p : providers.Provider) (m : string) (messages : ref)
    (tools : list ToolDefinition) (opts : gmap string any) : Request :=
  {| Protocol := Tools; Headers := jsonHeaders;
     Marshal := fun h =>
       Provider_Marshal p Tools h
         (PToolsData {| Tools_Model := m; Tools_Messages := messages;
                        Tools_Tools := tools; Tools_Options := opts |});
     Provider := p; Model := m |}.

End request.

(* ===================================================================== *)
(** ** Package [client] *)
(* ===================================================================== *)

Module client.
Import protocol gojson response context config.

Local Open Scope Z_scope.

(** *** Retry classification *)

Fixpoint isRetryableError (err : error) : bool :=
  if Is err Canceled || Is err DeadlineExceeded then false
  else
    match As_HTTPStatusError err with
    | Some StatusCode =>
        (StatusCode =? 429) || (StatusCode =? 502)
        || (StatusCode =? 503) || (StatusCode =? 504)
    | None =>
        if As_OpError err then true
        else
          match As_DNSError err with
          | Some (temporary, timeout) => temporary || timeout
          | None =>
              (* errors.As(err, &urlErr), then isRetryableError(urlErr.Err) *)
              (fix asURLError (e : error) : bool :=
                 match e with
                 | URLError _ _ inner => isRetryableError inner
                 | OpError _ e' | Wrapf _ e' => asURLError e'
                 | _ => false
                 end) err
          end
    end.

(** [if err == nil { return false }] *)
Definition isRetryable (err : option error) : bool :=
  match err with
  | None => false
  | Some e => isRetryableError e
  end.

(** *** Backoff *)

(** The value of a 64-bit signed integer after wrap-around. *)
Definition wrap64 (z : Z) : Z := (z + 2 ^ 63) mod 2 ^ 64 - 2 ^ 63.

(** [1 << uint(a)] at type [time.Duration]: the count is [a] as an
    unsigned 64-bit integer, and a count of 64 or more gives 0. *)
Definition shl1 (a : Z) : Z :=
  let u := a mod 2 ^ 64 in
  if u <? 64 then wrap64 (2 ^ u) else 0.

(** [initialBackoff * 2^min(attempt, 10)], as the code computes it. *)
Definition baseDelay (attempt : Z) (cfg : RetryConfig) : Z :=
  let maxAttempt := Z.min attempt 10 in
  wrap64 (InitialBackoff cfg * shl1 maxAttempt).

(** [Int63n] is the draw of [rand.Int63n], which panics on [n <= 0];
    a panic is [None]. *)
Definition calculateBackoff (Int63n : Z -> Z) (attempt : Z) (cfg : RetryConfig)
  : option Z :=
  let delay := baseDelay attempt cfg in
  if Jitter cfg then
    let jitterRange := Z.quot delay 4 in
    let n := wrap64 (jitterRange * 2) in
    if n <=? 0 then None
    else
      let jitter := wrap64 (Int63n n - jitterRange) in
      let delay := wrap64 (delay + jitter) in
      Some (Z.min delay (MaxBackoff cfg))
  else Some (Z.min delay (MaxBackoff cfg)).

(** *** The retry loop *)

Inductive Event :=
| Attempt (attempt : Z)     (* one invocation of the operation *)
| Wait (delay : Z).         (* one backoff wait that ran to its end *)

Inductive Outcome (T : Type) :=
| Returned (result : T) (err : option error)
| Panicked.
Arguments Returned {T}.
Arguments Panicked {T}.

Record Run (T S : Type) := {
  outcome : Outcome T;
  trace : list Event;
  final : S
}.
Arguments outcome {T S}.
Arguments trace {T S}.
Arguments final {T S}.

Definition logged {T S} (e : Event) (r : Run T S) : Run T S :=
  {| outcome := outcome r; trace := e :: trace r; final := final r |}.

Definition done {T S} (o : Outcome T) (s : S) : Run T S :=
  {| outcome := o; trace := []; final := s |}.

(** [fmt.Errorf("max retries (%d) exceeded: %w", cfg.MaxRetries, lastErr)];
    with a [nil] operand the verb prints [%!w(<nil>)] and nothing is
    wrapped. *)
Definition maxRetriesExceeded (cfg : RetryConfig) (lastErr : option error) : error :=
  match lastErr with
  | Some e => Wrapf ("max retries (" +:+ pretty (MaxRetries cfg) +:+ ") exceeded") e
  | None =>
      Errorf ("max retries (" +:+ pretty (MaxRetries cfg)
              +:+ ") exceeded: %!w(<nil>)")
  end.

Section doWithRetry.
Context {T S : Type}.
Variable ctx : Context.
Variable rand : nat -> Z -> Z.
Variable cfg : RetryConfig.
(** The operation is a closure over mutable state [S]. *)
Variable operation : S -> (T * option error) * S.

(** The [for] loop with [remaining] iterations to go, that is
    [MaxRetries - attempt + 1] of them. *)
Fixpoint retryLoop (remaining : nat) (attempt : Z) (result : T)
    (lastErr : option error) (s : S) : Run T S :=
  match remaining with
  | O => done (Returned result (Some (maxRetriesExceeded cfg lastErr))) s
  | Datatypes.S remaining' =>
      match ErrBefore ctx (Z.to_nat attempt) with
      | Some err =>
          done (Returned result (Some (Wrapf "operation cancelled" err))) s
      | None =>
          let '((result, lastErr), s) := operation s in
          logged (Attempt attempt)
            match lastErr with
            | None => done (Returned result None) s
            | Some e =>
                if negb (isRetryableError e) then
                  done (Returned result lastErr) s
                else if attempt <? MaxRetries cfg then
                  match calculateBackoff (rand (Z.to_nat attempt)) attempt cfg with
                  | None => done Panicked s
                  | Some delay =>
                      match DoneInBackoff ctx (Z.to_nat attempt) with
                      | Some err =>
                          done (Returned result
                                  (Some (Wrapf "operation cancelled during backoff"
                                           err))) s
                      | None =>
                          logged (Wait delay)
                            (retryLoop remaining' (attempt + 1) result lastErr s)
                      end
                  end
                else retryLoop remaining' (attempt + 1) result lastErr s
            end
      end
  end.

Definition doWithRetry (zero : T) (s : S) : Run T S :=
  retryLoop (Z.to_nat (MaxRetries cfg + 1)) 0 zero None s.

End doWithRetry.

Definition isAttempt (e : Event) : bool :=
  match e with Attempt _ => true | Wait _ => false end.

(** How often the operation was invoked. *)
Definition attempts (tr : list Event) : nat :=
  List.length (List.filter isAttempt tr).

(** The backoff delays waited, in order. *)
Definition waits (tr : list Event) : list Z :=
  omap (fun e => match e with Wait d => Some d | _ => None end) tr.

(** *** The client *)

(** The [client] struct; [lastHealth] is a wall-clock stamp only
    written, never read, and is left out. *)
Record client := {
  cfg : ClientConfig;
  healthy : bool
}.

Definition New (cfg : ClientConfig) : client :=
  {| cfg := cfg; healthy := true |}.

Definition IsHealthy (c : client) : bool := healthy c.

Definition setHealthy (c : client) (healthy : bool) : client :=
  {| cfg := cfg c; healthy := healthy |}.

(** The network: [http.NewRequestWithContext] refuses some URLs, and
    the [n]-th call of [httpClient.Do] answers with a response or a
    transport error (which is where a cancelled context shows). *)
Record Network := {
  NewRequestErr : string -> option error;
  Do : nat -> http.Request -> http.Response + error
}.

(** What an execution touches: the client, the heap, and counters of
    the calls of [req.Marshal()] and of [httpClient.Do]. *)
Record World := {
  cl : client;
  mem : providers.heap;
  marshals : nat;
  calls : nat
}.

Definition withClient (w : World) (c : client) : World :=
  {| cl := c; mem := mem w; marshals := marshals w; calls := calls w |}.

(** [req.Marshal()] *)
Definition callMarshal (req : request.Request) (w : World)
  : (json + error) * World :=
  let '(r, h) := request.Marshal req (mem w) in
  (r, {| cl := cl w; mem := h; marshals := S (marshals w); calls := calls w |}).

(** [httpClient.Do(httpReq)] *)
Definition callDo (net : Network) (httpReq : http.Request) (w : World)
  : (http.Response + error) * World :=
  (Do net (calls w) httpReq,
   {| cl := cl w; mem := mem w; marshals := marshals w; calls := S (calls w) |}).

(** [http.NewRequestWithContext(ctx, "POST", url, body)], then the
    provider request's headers and the provider's own. *)
Definition newRequest (net : Network) (provider : providers.Provider)
    (providerRequest : providers.Request) : http.Request + error :=
  match NewRequestErr net (providers.URL providerRequest) with
  | Some err => inr err
  | None =>
      let httpReq :=
        {| http.Method := "POST"; http.URL := providers.URL providerRequest;
           http.Header := ∅; http.ReqBody := providers.Body providerRequest |} in
      let httpReq :=
        map_fold (fun key value r => http.Header_Set r key value) httpReq
          (providers.Headers providerRequest) in
      inl (providers.SetHeaders provider httpReq)
  end.

Section Execution.
Variable net : Network.

(** One attempt. *)
Definition execute (req : request.Request) (w : World)
  : (any * option error) * World :=
  let provider := request.Provider req in
  let proto := request.Protocol req in
  let '(body, w) := callMarshal req w in
  match body with
  | inr err => ((Nil, Some (Wrapf "failed to marshal request" err)), w)
  | inl body =>
  match providers.PrepareRequest provider proto body (request.Headers req) with
  | inr err => ((Nil, Some (Wrapf "failed to prepare request" err)), w)
  | inl providerRequest =>
  match newRequest net provider providerRequest with
  | inr err => ((Nil, Some (Wrapf "failed to create HTTP request" err)), w)
  | inl httpReq =>
      let '(resp, w) := callDo net httpReq w in
      match resp with
      | inr err => ((Nil, Some err), withClient w (setHealthy (cl w) false))
      | inl resp =>
          if negb (http.StatusCode resp =? http.StatusOK) then
            let '(bodyBytes, _) := http.ReadAll (http.RespBody resp) in
            ((Nil, Some (HTTPStatusError (http.StatusCode resp)
                           (http.Status resp) bodyBytes)),
             withClient w (setHealthy (cl w) false))
          else
            match providers.ProcessResponse provider resp proto with
            | inr err =>
                ((Nil, Some err), withClient w (setHealthy (cl w) false))
            | inl result =>
                ((result, None), withClient w (setHealthy (cl w) true))
            end
      end
  end end end.

Definition Execute (ctx : Context) (rand : nat -> Z -> Z)
    (req : request.Request) (w : World) : Run any World :=
  doWithRetry ctx rand (Retry (cfg (cl w))) (execute req) Nil w.

(** The goroutine that forwards the provider's stream to the
    caller's channel; [true] when the stream was drained. *)
Fixpoint forward (ctx : Context) (stream : list StreamingChunk) (k : nat)
  : list StreamingChunk * bool :=
  match stream with
  | [] => ([], true)
  | chunk :: rest =>
      if DoneAtForward ctx k then ([], false)
      else let '(out, drained) := forward ctx rest (S k) in
           (chunk :: out, drained)
  end.

(** The result is what the caller receives from the returned
    channel until it is closed.  The world is the one after the
    forwarding goroutine has returned. *)
Definition executeStream (ctx : Context) (req : request.Request) (w : World)
  : (list StreamingChunk + error) * World :=
  let provider := request.Provider req in
  let proto := request.Protocol req in
  let '(body, w) := callMarshal req w in
  match body with
  | inr err => (inr (Wrapf "failed to marshal request" err), w)
  | inl body =>
  match providers.PrepareStreamRequest provider proto body (request.Headers req) with
  | inr err => (inr (Wrapf "failed to prepare streaming request" err), w)
  | inl providerRequest =>
  match newRequest net provider providerRequest with
  | inr err => (inr (Wrapf "failed to create HTTP request" err), w)
  | inl httpReq =>
      let '(resp, w) := callDo net httpReq w in
      match resp with
      | inr err =>
          (inr (Wrapf "streaming request failed" err),
           withClient w (setHealthy (cl w) false))
      | inl resp =>
          if negb (http.StatusCode resp =? http.StatusOK) then
            let '(bodyBytes, _) := http.ReadAll (http.RespBody resp) in
            (inr (Errorf ("streaming request failed with status "
                          +:+ pretty (http.StatusCode resp) +:+ ": "
                          +:+ bodyBytes)),
             withClient w (setHealthy (cl w) false))
          else
            match providers.ProcessStreamResponse provider ctx resp proto with
            | inr err => (inr err, withClient w (setHealthy (cl w) false))
            | inl stream =>
                let '(output, drained) :=
                  forward ctx (providers.received stream) 0 in
                (inl output,
                 if drained then withClient w (setHealthy (cl w) true) else w)
            end
      end
  end end end.

Definition ExecuteStream (ctx : Context) (req : request.Request) (w : World)
  : (list StreamingChunk + error) * World :=
  let proto := request.Protocol req in
  if negb (SupportsStreaming proto) then
    (inr (Errorf ("protocol " +:+ proto +:+ " does not support streaming")), w)
  else executeStream ctx req w.

End Execution.

End client.

(* ===================================================================== *)
(** ** Fixtures for the examples *)
(* ===================================================================== *)

Module fixtures.
Import strings protocol gojson response providers.

(** A stand-in for [encoding/json] in the examples: a payload is
    accepted when it is enclosed in braces, and decodes to a chunk
    whose first delta carries the bytes between them. *)
Definition chunk (content : string) : StreamingChunk :=
  {| ID := ""; Object := ""; Created := 0; response.Model := "m";
     Choices :=
       [{| Index := 0; Delta_Role := ""; Delta_Content := content;
           FinishReason := None |}];
     Error := None |}.

Definition braces (payload : string) : StreamingChunk + error :=
  if HasPrefix payload "{" && HasSuffix payload "}"
  then inl (chunk (slice payload 1 (String.length payload - 1)))
  else inr (Errorf "invalid character").

Definition bracesUnmarshaler : Unmarshaler :=
  {| Unmarshal_StreamingChunk := braces;
     Unmarshal_Response := fun _ body => inl (Str body) |}.

Definition ollamaConfig (base : string) : ProviderConfig :=
  {| Cfg_Name := "ollama"; Cfg_BaseURL := base; Cfg_Options := ∅ |}.

(** The provider [NewOllama] builds for [http://host]. *)
Definition ollama : Provider :=
  @Ollama bracesUnmarshaler
    {| Ollama_Base := NewBaseProvider "ollama" "http://host/v1";
       Ollama_options := ∅ |}.

Definition newline : string := byte 10.

(** An event-stream line with the given payload. *)
Definition dataLine (payload : string) : string :=
  "data: " +:+ payload +:+ newline.

(** A network whose [n]-th call is answered with the status
    [statuses n] and the given body, read to its end without error. *)
Definition network (statuses : nat -> Z) (body : string) : client.Network :=
  {| client.NewRequestErr := fun _ => None;
     client.Do := fun n _ =>
       inl {| http.StatusCode := statuses n; http.Status := "";
              http.RespBody := {| http.data := body; http.readErr := None |} |} |}.


(** A retry configuration with jitter and no initial backoff. *)
Definition zeroBackoff : config.ClientConfig :=
  {| config.Timeout := config.Minute;
     config.Retry :=
       {| config.MaxRetries := 1; config.InitialBackoff := 0;
          config.MaxBackoff := config.Second; config.Jitter := true |};
     config.ConnectionPoolSize := 10;
     config.ConnectionTimeout := config.Second |}.

(** A chat request to the fixture provider, over the slice at [0]. *)
Definition chat : request.Request := request.NewChat ollama "m" 0%nat ∅.

(** A vision request over an empty message list, which does not
    marshal. *)
Definition visionWithoutMessages : request.Request :=
  request.NewVision ollama "m" 0%nat ["a.png"] None ∅.

(** A freshly constructed client over an empty heap. *)
Definition world (cfg : config.ClientConfig) : client.World :=
  {| client.cl := client.New cfg; client.mem := ∅;
     client.marshals := 0; client.calls := 0 |}.

End fixtures.

(* ===================================================================== *)
(** ** Vocabulary of the properties *)
(* ===================================================================== *)

Module specs.
Import strings protocol gojson response providers context.

(** The base URL [NewOllama] stores for a configured one. *)
Definition normalized `{Unmarshaler} (base : string) : string :=
  match NewOllama (fixtures.ollamaConfig base) with
  | inl p => BaseURL p
  | inr _ => ""
  end.





(** [initialBackoff * 2^min(k, 10)], in exact arithmetic. *)
Definition expected (k : Z) (cfg : config.RetryConfig) : Z :=
  (config.InitialBackoff cfg * 2 ^ Z.min k 10)%Z.

(** What [rand.Int63n] promises of its draw. *)
Definition validDraw (Int63n : Z -> Z) : Prop :=
  forall n, (0 < n)%Z -> (0 <= Int63n n < n)%Z.

(** The backoff before retry [k+1] is computed, and is
    [min(expected, maxBackoff)] without jitter and within
    [[lower, maxBackoff]] with jitter, where [lower] is given four-fold
    to stay in the integers. *)
Definition backoffWithin (lower4 : Z) (Int63n : Z -> Z) (k : Z)
    (cfg : config.RetryConfig) : Prop :=
  exists delay, client.calculateBackoff Int63n k cfg = Some delay
    /\ if config.Jitter cfg
       then (lower4 <= 4 * delay /\ delay <= config.MaxBackoff cfg)%Z
       else delay = Z.min (expected k cfg) (config.MaxBackoff cfg).

(** The bounds as the specification words them: three quarters of
    [expected] below. *)
Definition backoffAsSpecified (Int63n : Z -> Z) (k : Z)
    (cfg : config.RetryConfig) : Prop :=
  backoffWithin (3 * expected k cfg) Int63n k cfg.

(** The bounds the code keeps: the cap at [maxBackoff] applies to the
    lower end too. *)
Definition backoffAsComputed (Int63n : Z -> Z) (k : Z)
    (cfg : config.RetryConfig) : Prop :=
  backoffWithin (Z.min (3 * expected k cfg) (4 * config.MaxBackoff cfg))
    Int63n k cfg.

(** The statuses the retry loop retries on. *)
Definition retryableStatus (code : Z) : Prop := code ∈ [429; 502; 503; 504]%Z.

(** The errors the claim about single attempts names: a cancellation or
    deadline error, possibly wrapped, or an HTTP status error whose
    status is not retried. *)
Definition nonRetryable (e : error) : Prop :=
  Is e Canceled = true
  \/ Is e DeadlineExceeded = true
  \/ exists code status body,
       e = HTTPStatusError code status body /\ ~ retryableStatus code.

(** The context is done neither before an attempt nor during a backoff
    wait. *)
Definition neverCancelled (ctx : Context) : Prop :=
  (forall k, ErrBefore ctx k = None) /\ (forall k, DoneInBackoff ctx k = None).

(** No backoff computation of the run panics. *)
Definition backoffDefined (rand : nat -> Z -> Z) (cfg : config.RetryConfig) : Prop :=
  forall k, (0 <= k < config.MaxRetries cfg)%Z ->
    client.calculateBackoff (rand (Z.to_nat k)) k cfg <> None.



(** After an attempt the health flag tells whether it succeeded. *)
Definition healthReflectsOutcome (net : client.Network) (req : request.Request)
    (w : client.World) : Prop :=
  let '((_, err), w') := client.execute net req w in
  client.IsHealthy (client.cl w') = if err is None then true else false.

(** After an attempt that called [httpClient.Do] the health flag tells
    whether it succeeded; an attempt that failed before that call left
    the flag as it was. *)
Definition healthReflectsTransport (net : client.Network) (req : request.Request)
    (w : client.World) : Prop :=
  let '((_, err), w') := client.execute net req w in
  (client.calls w' = S (client.calls w)
   /\ client.IsHealthy (client.cl w') = if err is None then true else false)
  \/ (client.calls w' = client.calls w
      /\ err <> None
      /\ client.IsHealthy (client.cl w') = client.IsHealthy (client.cl w)).

(** *** Lines of a stream *)

(** The string holds the delimiter of [ReadString]. *)
Fixpoint hasNewline (s : string) : bool :=
  match s with
  | EmptyString => false
  | String c rest => Ascii.eqb c "010"%char || hasNewline rest
  end.

(** The body made of the given lines, each followed by the delimiter,
    and of the bytes [tail] after the last delimiter. *)
Fixpoint bodyOf (lines : list string) (tail : string) : string :=
  match lines with
  | [] => tail
  | line :: rest => line +:+ fixtures.newline +:+ bodyOf rest tail
  end.

(** The [select] of no send of the worker takes the [ctx.Done()] case. *)
Definition neverCancelledAtSend (ctx : Context) : Prop :=
  forall k, DoneAtSend ctx k = false.

(** [cs] received first, then what [s] delivers. *)
Definition prepend (cs : list StreamingChunk) (s : Stream) : Stream :=
  {| received := (cs ++ received s)%list; exit := exit s |}.

Section Lines.
Context `{Unmarshaler}.
Variable proto : Protocol.

(** The Ollama worker decodes the line to the chunk [c]. *)
Definition Ollama_decodes (line : string) (c : StreamingChunk) : Prop :=
  let l := TrimSpace line in
  String.eqb l "" = false
  /\ String.eqb l "data: [DONE]" = false
  /\ ParseStreamChunk proto (CutPrefix l "data: ").1 = inl c.

(** The line is the Ollama termination marker. *)
Definition Ollama_marker (line : string) : Prop :=
  TrimSpace line = "data: [DONE]".


(** The Azure worker decodes the line to the chunk [c]. *)
Definition Azure_decodes (line : string) (c : StreamingChunk) : Prop :=
  let l := TrimSpace line in
  HasPrefix l "data: " = true
  /\ String.eqb (TrimPrefix l "data: ") "[DONE]" = false
  /\ ParseStreamChunk proto (TrimPrefix l "data: ") = inl c.

(** The payload of the line, after the given prefix, is [[DONE]]. *)
Definition Azure_marker (pre : string) (line : string) : Prop :=
  let l := TrimSpace line in
  HasPrefix l pre = true /\ TrimPrefix l pre = "[DONE]".


(** A worker stops at the marker: when the lines before it decode to
    [cs] and no send is cancelled, a consumer receives exactly [cs]
    and then finds the channel closed, whatever follows the marker. *)
Definition stopsAtMarker
    (worker : Context -> Protocol -> list string -> option error -> nat -> Stream)
    (decodes : string -> StreamingChunk -> Prop) (marker : string -> Prop) : Prop :=
  forall ctx before cs m after err,
    neverCancelledAtSend ctx ->
    Forall2 decodes before cs ->
    marker m ->
    worker ctx proto (before ++ m :: after)%list err 0%nat
    = {| received := cs; exit := ExitDone |}.

(** The claim about termination markers, for an Azure marker behind the
    prefix [pre]. *)
Definition workersStopAtMarker (pre : string) : Prop :=
  stopsAtMarker Ollama_worker Ollama_decodes Ollama_marker
  /\ stopsAtMarker Azure_worker Azure_decodes (Azure_marker pre).


End Lines.

End specs.

(* ===================================================================== *)
(** ** The provider registry *)
(* ===================================================================== *)

Module registry.
Import response providers.

(** [type Factory func(c *config.ProviderConfig) (Provider, error)] *)
Definition Factory : Type := ProviderConfig -> Provider + error.

(** The [factories] map of the registry; the lock around it is not
    modelled. *)
Abbreviation factories := (gmap string (ProviderConfig -> Provider + error)).

Definition Register (r : factories) (name : string) (factory : Factory)
  : factories :=
  <[name := factory]> r.

Definition Create (r : factories) (c : ProviderConfig) : Provider + error :=
  match r !! Cfg_Name c with
  | None => inr (Errorf ("unknown provider: " +:+ Cfg_Name c))
  | Some factory => factory c
  end.

(** The names come in the iteration order of the map, which Go leaves
    open; here it is the order of [map_to_list]. *)
Definition ListProviders (r : factories) : list string :=
  (map_to_list r).*1.

(** The registry after the package's [init]. *)
Definition init `{Unmarshaler} : factories :=
  Register (Register ∅ "ollama" NewOllama) "azure" NewAzure.

End registry.

(* ===================================================================== *)
(** ** [ClientConfig.Merge] *)
(* ===================================================================== *)

Module merge.
Import config.

(** The client configuration with the [BackoffMultiplier] of its retry
    section, a [float64], beside the fields the client reads. *)
Record Config := {
  fields : ClientConfig;
  BackoffMultiplier : float
}.

(** [c.Merge(source)]: positive values of the source win, [Jitter] is
    always taken from it. *)
Definition Merge (c source : Config) : Config :=
  let pick (s t : Z) : Z := if (0 <? s)%Z then s else t in
  {| fields :=
       {| Timeout := pick (Timeout (fields source)) (Timeout (fields c));
          Retry :=
            {| MaxRetries :=
                 pick (MaxRetries (Retry (fields source)))
                      (MaxRetries (Retry (fields c)));
               InitialBackoff :=
                 pick (InitialBackoff (Retry (fields source)))
                      (InitialBackoff (Retry (fields c)));
               MaxBackoff :=
                 pick (MaxBackoff (Retry (fields source)))
                      (MaxBackoff (Retry (fields c)));
               Jitter := Jitter (Retry (fields source)) |};
          ConnectionPoolSize :=
            pick (ConnectionPoolSize (fields source))
                 (ConnectionPoolSize (fields c));
          ConnectionTimeout :=
            pick (ConnectionTimeout (fields source))
                 (ConnectionTimeout (fields c)) |};
     BackoffMultiplier :=
       if PrimFloat.ltb 0%float (BackoffMultiplier source)
       then BackoffMultiplier source
       else BackoffMultiplier c |}.

(** [DefaultClientConfig()] *)
Definition Default : Config :=
  {| fields := DefaultClientConfig; BackoffMultiplier := 2%float |}.

(** Every numeric setting is positive. *)
Definition positive (c : Config) : Prop :=
  (0 < Timeout (fields c)
   /\ 0 < MaxRetries (Retry (fields c))
   /\ 0 < InitialBackoff (Retry (fields c))
   /\ 0 < MaxBackoff (Retry (fields c))
   /\ 0 < ConnectionPoolSize (fields c)
   /\ 0 < ConnectionTimeout (fields c))%Z
  /\ PrimFloat.ltb 0%float (BackoffMultiplier c) = true.

End merge.

(* ===================================================================== *)
(** ** Vocabulary of the further properties *)
(* ===================================================================== *)

Module extras.
Import strings protocol gojson response providers context.

(** The [st i] are the worlds before the attempts of a request that
    fails retryably [j] times and succeeds then. *)
Definition failsThenSucceeds (net : client.Network) (req : request.Request)
    (j : nat) (st : nat -> client.World) (res : any) (w' : client.World) : Prop :=
  (forall i, (i < j)%nat ->
     exists r e,
       client.execute net req (st i) = ((r, Some e), st (S i))
       /\ client.isRetryableError e = true)
  /\ client.execute net req (st j) = ((res, None), w').

(** The world after [i] attempts of the fixture chat request that all
    ended in a failure of the transport or of the status. *)
Definition afterFailures (i : nat) : client.World :=
  {| client.cl :=
       if i is O then client.New config.DefaultClientConfig
       else client.setHealthy (client.New config.DefaultClientConfig) false;
     client.mem := ∅; client.marshals := i; client.calls := i |}.

(** The options of a payload. *)
Definition optionsOf (data : Data) : gmap string any :=
  match data with
  | PChatData d => Chat_Options d
  | PVisionData d => Options d
  | PToolsData d => Tools_Options d
  | PEmbeddingsData d => Emb_Options d
  | OtherData _ => ∅
  end.

(** The four options [NewAzure] requires are non-empty strings. *)
Definition azureOptions (c : ProviderConfig) (deployment authType token
    apiVersion : string) : Prop :=
  Cfg_Options c !! "deployment" = Some (Str deployment) /\ deployment <> ""
  /\ Cfg_Options c !! "auth_type" = Some (Str authType) /\ authType <> ""
  /\ Cfg_Options c !! "token" = Some (Str token) /\ token <> ""
  /\ Cfg_Options c !! "api_version" = Some (Str apiVersion) /\ apiVersion <> "".

(** A configuration for Azure with the four options. *)
Definition azureConfig : ProviderConfig :=
  {| Cfg_Name := "azure"; Cfg_BaseURL := "https://x.openai.azure.com/openai";
     Cfg_Options :=
       <["deployment" := Str "gpt"]>
       (<["auth_type" := Str "api_key"]>
        (<["token" := Str "secret"]>
         (<["api_version" := Str "2024-02-01"]> ∅))) |}.

(** A context that is done before the first attempt. *)
Definition cancelledBefore : Context :=
  {| ErrBefore := fun _ => Some Canceled; DoneInBackoff := fun _ => None;
     DoneAtSend := fun _ => false; DoneAtForward := fun _ => false |}.

(** A request of a protocol no backend has an endpoint for; it
    marshals to the empty document. *)
Definition audio : request.Request :=
  {| request.Protocol := "audio"; request.Headers := request.jsonHeaders;
     request.Marshal := fun h => (inl JNull, h);
     request.Provider := fixtures.ollama; request.Model := "m" |}.

(** A network that answers 503 twice and 200 from then on. *)
Definition flaky : client.Network :=
  fixtures.network (fun n => if (n <? 2)%nat then 503%Z else 200%Z) "ok".


(** The model name of a payload. *)
Definition modelOf (data : Data) : string :=
  match data with
  | PChatData d => Chat_Model d
  | PVisionData d => Model d
  | PToolsData d => Tools_Model d
  | PEmbeddingsData d => Emb_Model d
  | OtherData _ => ""
  end.


End extras.

(* ===================================================================== *)
(** * Properties *)
(* ===================================================================== *)

(** ** Byte strings *)

Section StringFacts.
Import strings.

Lemma append_nil_l (b : string) : "" +:+ b = b.
Proof. reflexivity. Qed.

Lemma append_cons (c : ascii) (a b : string) :
  String c a +:+ b = String c (a +:+ b).
Proof. reflexivity. Qed.

Ltac by_append_induction a :=
  induction a as [|? a IH];
  rewrite ?append_nil_l, ?append_cons; simpl;
  [try reflexivity | try (rewrite IH; reflexivity)].

Lemma length_append (a b : string) :
  String.length (a +:+ b) = (String.length a + String.length b)%nat.
Proof. by_append_induction a. Qed.

Lemma append_nil_r (a : string) : a +:+ "" = a.
Proof. by_append_induction a. Qed.

Lemma append_assoc (a b c : string) : a +:+ (b +:+ c) = (a +:+ b) +:+ c.
Proof. by_append_induction a. Qed.

Lemma substring_all (a : string) : String.substring 0 (String.length a) a = a.
Proof. induction a as [|c a IH]; simpl; [reflexivity | now rewrite IH]. Qed.

Lemma substring_append_l (a b : string) :
  String.substring 0 (String.length a) (a +:+ b) = a.
Proof.
  by_append_induction a; now destruct b.
Qed.

Lemma substring_append_r (a b : string) (n : nat) :
  String.substring (String.length a) n (a +:+ b) = String.substring 0 n b.
Proof. by_append_induction a; exact IH. Qed.

(** A string splits at any position within it. *)
Lemma substring_split (s : string) (n : nat) :
  (n <= String.length s)%nat ->
  s = String.substring 0 n s +:+ String.substring n (String.length s - n) s.
Proof.
  revert n; induction s as [|c s IH]; intros [|n] Hn; simpl in *; try lia.
  - reflexivity.
  - now rewrite substring_all.
  - rewrite append_cons. f_equal. apply IH. lia.
Qed.

Lemma HasSuffix_append (a b : string) : HasSuffix (a +:+ b) b = true.
Proof.
  unfold HasSuffix, slice. rewrite length_append.
  apply andb_true_intro; split; [apply Nat.leb_le; lia|].
  replace (String.length a + String.length b - String.length b)%nat
    with (String.length a) by lia.
  replace (String.length a + String.length b - String.length a)%nat
    with (String.length b) by lia.
  rewrite substring_append_r, substring_all. apply String.eqb_refl.
Qed.

Lemma HasSuffix_inv (s suf : string) :
  HasSuffix s suf = true -> exists p, s = p +:+ suf.
Proof.
  unfold HasSuffix, slice. intros [Hle Heq]%andb_prop.
  apply Nat.leb_le in Hle. apply String.eqb_eq in Heq.
  exists (String.substring 0 (String.length s - String.length suf) s).
  pose proof (substring_split s (String.length s - String.length suf)) as E.
  rewrite Heq in E. apply E. lia.
Qed.

Lemma TrimSuffix_append (a b : string) : TrimSuffix (a +:+ b) b = a.
Proof.
  unfold TrimSuffix. rewrite HasSuffix_append. unfold slice.
  rewrite length_append.
  replace (String.length a + String.length b - String.length b - 0)%nat
    with (String.length a) by lia.
  apply substring_append_l.
Qed.

(** Two strings that are equal end in the same byte. *)
Lemma append_last_byte (a b : string) (c d : ascii) :
  a +:+ String c "" = b +:+ String d "" -> c = d.
Proof.
  revert b; induction a as [|x a IH]; intros [|y b] E;
    rewrite ?append_nil_l, ?append_cons in E.
  - now inversion E.
  - inversion E as [[Hx E']]. destruct b; discriminate.
  - inversion E as [[Hx E']]. destruct a; discriminate.
  - inversion E. eauto.
Qed.

Lemma HasSuffix_last_byte (a suf : string) (c d : ascii) :
  c <> d -> HasSuffix (a +:+ String c "") (suf +:+ String d "") = false.
Proof.
  intros Hcd. destruct (HasSuffix _ _) eqn:E; [|reflexivity].
  apply HasSuffix_inv in E as [p E]. rewrite append_assoc in E.
  apply append_last_byte in E. contradiction.
Qed.

End StringFacts.

(** ** Endpoint resolution of the Ollama provider *)

Section OllamaEndpoint.
Import strings protocol response providers.
Context `{Unmarshaler}.

Lemma Ollama_Endpoint_Chat (p : OllamaProvider) :
  Ollama_Endpoint p Chat = inl (baseURL (Ollama_Base p) +:+ "/chat/completions").
Proof. reflexivity. Qed.

Import specs.

Lemma normalized_plain (b : string) :
  HasSuffix b "/" = false -> HasSuffix b "/v1" = false ->
  normalized b = b +:+ "/v1".
Proof.
  intros Hs Hv. unfold normalized, NewOllama; simpl.
  rewrite Hv; simpl. unfold TrimSuffix. now rewrite Hs.
Qed.

Lemma normalized_slash (b : string) : normalized (b +:+ "/") = b +:+ "/v1".
Proof.
  unfold normalized, NewOllama; simpl.
  pose proof (HasSuffix_last_byte b "/v" "/" "1" ltac:(discriminate)) as E.
  change ("/v" +:+ "1") with "/v1" in E. rewrite E; simpl.
  now rewrite TrimSuffix_append.
Qed.

Lemma normalized_v1 (b : string) : normalized (b +:+ "/v1") = b +:+ "/v1".
Proof.
  unfold normalized, NewOllama; simpl. now rewrite HasSuffix_append.
Qed.

Lemma NewOllama_Endpoint_Chat (c : ProviderConfig) :
  exists p, NewOllama c = inl p
    /\ Endpoint p Chat
       = inl (normalized (Cfg_BaseURL c) +:+ "/chat/completions").
Proof.
  unfold normalized, NewOllama. eexists; split; [reflexivity|].
  simpl. rewrite Ollama_Endpoint_Chat. reflexivity.
Qed.

End OllamaEndpoint.

(** C9.  For a base URL [b] that ends neither in a slash nor in [/v1],
    the Ollama providers constructed from [b], from [b/] and from [b/v1]
    all resolve the chat protocol to [b/v1/chat/completions]; with
    [b = http://host] these are [http://host], [http://host/] and
    [http://host/v1].  Normalizing a normalized base URL changes
    nothing. *)
Theorem NewOllama_base_url_normalization `{response.Unmarshaler}
    (b name : string) (opts : gmap string gojson.any) :
  strings.HasSuffix b "/" = false ->
  strings.HasSuffix b "/v1" = false ->
  (forall base, base ∈ [b; b +:+ "/"; b +:+ "/v1"] ->
     exists p,
       providers.NewOllama
         {| providers.Cfg_Name := name; providers.Cfg_BaseURL := base;
            providers.Cfg_Options := opts |} = inl p
       /\ providers.Endpoint p protocol.Chat = inl (b +:+ "/v1/chat/completions"))
  /\ (forall base, specs.normalized (specs.normalized base) = specs.normalized base).
Proof.
  intros Hs Hv. split.
  - intros base Hin.
    destruct (NewOllama_Endpoint_Chat
                {| providers.Cfg_Name := name; providers.Cfg_BaseURL := base;
                   providers.Cfg_Options := opts |}) as (p & Hp & He).
    exists p. split; [exact Hp|]. rewrite He. simpl.
    assert (Hn : specs.normalized base = b +:+ "/v1").
    { apply elem_of_cons in Hin as [->|Hin]; [now apply normalized_plain|].
      apply elem_of_cons in Hin as [->|Hin]; [apply normalized_slash|].
      apply elem_of_cons in Hin as [->|Hin]; [apply normalized_v1|].
      now apply elem_of_nil in Hin. }
    rewrite Hn, <- append_assoc. reflexivity.
  - intros base. unfold specs.normalized at 2 3. unfold providers.NewOllama; simpl.
    destruct (strings.HasSuffix base "/v1") eqn:E; simpl.
    + apply HasSuffix_inv in E as [p ->]. apply normalized_v1.
    + apply normalized_v1.
Qed.

Lemma NewOllama_base_url_normalization_host :
  Forall
    (fun base =>
       exists p,
         @providers.NewOllama fixtures.bracesUnmarshaler (fixtures.ollamaConfig base)
         = inl p
         /\ providers.Endpoint p protocol.Chat
            = inl "http://host/v1/chat/completions")
    ["http://host"; "http://host/"; "http://host/v1"].
Proof.
  apply Forall_forall.
  exact (proj1 (@NewOllama_base_url_normalization fixtures.bracesUnmarshaler
                  "http://host" "ollama" ∅ eq_refl eq_refl)).
Defined.

(** ** Streaming support *)

(** C8.  [ExecuteStream] on a request of the embeddings protocol returns
    the "does not support streaming" error at once: [req.Marshal()] is
    not called, [httpClient.Do] is not called, the health flag and the
    heap are as before, and nothing is retried.  The streaming check
    passes for chat, vision and tools, where [ExecuteStream] is
    [executeStream]. *)
Theorem ExecuteStream_embeddings_unsupported
    (net : client.Network) (ctx : context.Context) (req : request.Request)
    (w : client.World) :
  (request.Protocol req = protocol.Embeddings ->
     client.ExecuteStream net ctx req w
     = (inr (Errorf "protocol embeddings does not support streaming"), w))
  /\ (request.Protocol req ∈ [protocol.Chat; protocol.Vision; protocol.Tools] ->
        protocol.SupportsStreaming (request.Protocol req) = true
        /\ client.ExecuteStream net ctx req w = client.executeStream net ctx req w).
Proof.
  unfold client.ExecuteStream. split.
  - intros ->. reflexivity.
  - intros Hin.
    assert (Hs : protocol.SupportsStreaming (request.Protocol req) = true).
    { repeat (apply elem_of_cons in Hin as [->|Hin]; [reflexivity|]).
      now apply elem_of_nil in Hin. }
    now rewrite Hs.
Qed.

Lemma ExecuteStream_embeddings_unsupported_witness :
  client.ExecuteStream (fixtures.network (fun _ => 200%Z) "") context.Background
    (request.NewEmbeddings fixtures.ollama "m" (gojson.Str "text") ∅)
    (fixtures.world config.DefaultClientConfig)
  = (inr (Errorf "protocol embeddings does not support streaming"),
     fixtures.world config.DefaultClientConfig).
Proof.
  exact (proj1 (ExecuteStream_embeddings_unsupported
                  (fixtures.network (fun _ => 200%Z) "") context.Background
                  (request.NewEmbeddings fixtures.ollama "m" (gojson.Str "text") ∅)
                  (fixtures.world config.DefaultClientConfig)) eq_refl).
Defined.

(** The constructors of the package [request] fix the protocol. *)
Lemma request_protocols (p : providers.Provider) (m : string)
    (msgs : providers.ref) (opts : gmap string gojson.any) :
  request.Protocol (request.NewChat p m msgs opts) = protocol.Chat
  /\ (forall imgs vo,
        request.Protocol (request.NewVision p m msgs imgs vo opts) = protocol.Vision)
  /\ (forall tools,
        request.Protocol (request.NewTools p m msgs tools opts) = protocol.Tools)
  /\ (forall input,
        request.Protocol (request.NewEmbeddings p m input opts) = protocol.Embeddings).
Proof. repeat split. Qed.

(** ** Vision marshaling *)

Section Vision.
Import strings protocol gojson providers.

Lemma Marshal_Vision (h : heap) (data : Data) :
  Marshal Vision h data = marshalVision h data.
Proof. reflexivity. Qed.

End Vision.

(** C10.  Marshaling a vision payload whose message list is empty fails
    with "messages cannot be empty for vision requests", whatever the
    images, and leaves the heap as it was. *)
Theorem Marshal_vision_empty_messages (h : providers.heap) (d : providers.VisionData) :
  providers.deref h (providers.Messages d) = [] ->
  providers.Marshal protocol.Vision h (providers.PVisionData d)
  = (inr (Errorf "messages cannot be empty for vision requests"), h).
Proof.
  intros Hm. rewrite Marshal_Vision. unfold providers.marshalVision.
  now rewrite Hm.
Qed.

Lemma Marshal_vision_empty_messages_witness :
  providers.Marshal protocol.Vision ∅
    (providers.PVisionData
       {| providers.Model := "m"; providers.Messages := 0%nat;
          providers.Images := ["a.png"; "b.png"];
          providers.VisionOptions := None; providers.Options := ∅ |})
  = (inr (Errorf "messages cannot be empty for vision requests"), ∅).
Proof.
  apply Marshal_vision_empty_messages. reflexivity.
Defined.

Section VisionBlocks.
Import strings protocol gojson providers specs.




End VisionBlocks.




(** ** Backoff *)

Section Backoff.
Import config client specs.
Local Open Scope Z_scope.

Lemma wrap64_id (z : Z) : - 2 ^ 63 <= z < 2 ^ 63 -> wrap64 z = z.
Proof.
  intros Hz. unfold wrap64.
  change (2 ^ 64) with (2 * 2 ^ 63). rewrite Z.mod_small; lia.
Qed.

Lemma pow2_capped (k : Z) : 0 <= k -> 1 <= 2 ^ Z.min k 10 <= 1024.
Proof.
  intros Hk. split.
  - apply (Z.pow_le_mono_r 2 0); lia.
  - change 1024 with (2 ^ 10). apply Z.pow_le_mono_r; lia.
Qed.

Lemma shl1_capped (k : Z) : 0 <= k -> shl1 (Z.min k 10) = 2 ^ Z.min k 10.
Proof.
  intros Hk. unfold shl1. pose proof (pow2_capped k Hk) as Hp.
  rewrite Z.mod_small by (change (2 ^ 64) with 18446744073709551616; lia).
  destruct (Z.ltb_spec (Z.min k 10) 64); [|lia].
  apply wrap64_id. change (2 ^ 63) with 9223372036854775808. lia.
Qed.

Lemma baseDelay_expected (k : Z) (cfg : RetryConfig) :
  0 <= k -> - 2 ^ 63 <= expected k cfg < 2 ^ 63 ->
  baseDelay k cfg = expected k cfg.
Proof.
  intros Hk Hr. unfold baseDelay. rewrite shl1_capped by exact Hk.
  now apply wrap64_id.
Qed.

End Backoff.

(** C3, as amended.  For an attempt index [k >= 0], a non-negative
    initial backoff whose product [d = initialBackoff * 2^min(k,10)]
    stays, with a quarter added, within 64-bit nanoseconds, and a draw
    as [rand.Int63n] delivers it: without jitter the delay is exactly
    [min(d, maxBackoff)]; with jitter, and [d] at least 4ns so that the
    draw is defined, the delay lies within
    [[min(0.75 d, maxBackoff), maxBackoff]]. *)
Theorem calculateBackoff_bounds (Int63n : Z -> Z) (k : Z) (cfg : config.RetryConfig) :
  (0 <= k)%Z ->
  (0 <= config.InitialBackoff cfg)%Z ->
  (5 * specs.expected k cfg < 4 * 2 ^ 63)%Z ->
  (config.Jitter cfg = true -> 4 <= specs.expected k cfg)%Z ->
  specs.validDraw Int63n ->
  specs.backoffAsComputed Int63n k cfg.
Proof.
  intros Hk Hi Hov Hj Hdraw.
  assert (He : (0 <= specs.expected k cfg)%Z).
  { unfold specs.expected. pose proof (pow2_capped k Hk). nia. }
  change (2 ^ 63)%Z with 9223372036854775808%Z in Hov.
  unfold specs.backoffAsComputed, specs.backoffWithin, client.calculateBackoff.
  rewrite baseDelay_expected
    by (try exact Hk; change (2 ^ 63)%Z with 9223372036854775808%Z; lia).
  destruct (config.Jitter cfg) eqn:Ej; [|eexists; split; reflexivity].
  specialize (Hj eq_refl).
  set (d := specs.expected k cfg) in *.
  rewrite Z.quot_div_nonneg by lia.
  assert (Hq : (1 <= d / 4 /\ 4 * (d / 4) <= d)%Z).
  { split; [apply Z.div_le_lower_bound; lia | apply Z.mul_div_le; lia]. }
  rewrite (wrap64_id (d / 4 * 2))
    by (change (2 ^ 63)%Z with 9223372036854775808%Z; lia).
  destruct (Z.leb_spec (d / 4 * 2) 0); [lia|].
  destruct (Hdraw (d / 4 * 2)%Z ltac:(lia)) as [Hlo Hhi].
  rewrite (wrap64_id (Int63n _ - d / 4))
    by (change (2 ^ 63)%Z with 9223372036854775808%Z; lia).
  rewrite wrap64_id by (change (2 ^ 63)%Z with 9223372036854775808%Z; lia).
  eexists; split; [reflexivity|]. lia.
Qed.

Lemma calculateBackoff_bounds_witness :
  specs.backoffAsComputed (fun _ => 0%Z) 6 config.DefaultRetryConfig.
Proof.
  apply calculateBackoff_bounds; [lia | discriminate | reflexivity | | ].
  - intros _. discriminate.
  - intros n Hn. lia.
Defined.

(** C3 as stated fails once the cap applies: with the default
    configuration (1s initial, 30s maximum, jitter on) the delay before
    the seventh attempt is the cap, 30s, which is below three quarters
    of 64s. *)
Lemma calculateBackoff_cap_below_jitter_floor :
  specs.validDraw (fun _ => 0%Z)
  /\ ~ specs.backoffAsSpecified (fun _ => 0%Z) 6 config.DefaultRetryConfig.
Proof.
  split; [intros n Hn; lia|].
  intros (delay & Hd & Hb). vm_compute in Hd. injection Hd as <-.
  simpl in Hb. destruct Hb as [Hlo _]. vm_compute in Hlo. now apply Hlo.
Qed.

(** ** The retry loop *)

Section RetryClassification.
Import client specs.
Local Open Scope Z_scope.

Lemma isRetryableError_status (code : Z) (status body : string) :
  isRetryableError (HTTPStatusError code status body)
  = (code =? 429) || (code =? 502) || (code =? 503) || (code =? 504).
Proof. reflexivity. Qed.

(** The classifier, in the shape of the source: the last case is
    [errors.As] with a [*url.Error] target and the recursive call on
    its [Err]. *)
Lemma isRetryableError_equation (err : error) :
  isRetryableError err
  = if Is err Canceled || Is err DeadlineExceeded then false
    else match As_HTTPStatusError err with
         | Some code =>
             (code =? 429) || (code =? 502) || (code =? 503) || (code =? 504)
         | None =>
             if As_OpError err then true
             else match As_DNSError err with
                  | Some (temporary, timeout) => temporary || timeout
                  | None =>
                      match As_URLError err with
                      | Some inner => isRetryableError inner
                      | None => false
                      end
                  end
         end.
Proof.
  assert (Hurl : forall e,
             (fix asURLError (e : error) : bool :=
                match e with
                | URLError _ _ inner => isRetryableError inner
                | OpError _ e' | Wrapf _ e' => asURLError e'
                | _ => false
                end) e
             = match As_URLError e with
               | Some inner => isRetryableError inner
               | None => false
               end).
  { induction e; simpl; auto. }
  destruct err; simpl; rewrite ?Hurl; reflexivity.
Qed.

Lemma retryableStatus_spec (code : Z) :
  retryableStatus code
  <-> (code =? 429) || (code =? 502) || (code =? 503) || (code =? 504) = true.
Proof.
  unfold retryableStatus. rewrite !orb_true_iff, !Z.eqb_eq.
  rewrite !elem_of_cons, elem_of_nil. tauto.
Qed.

(** An error with a context error in its chain is never retried. *)
Lemma isRetryableError_context (e : error) :
  Is e Canceled || Is e DeadlineExceeded = true -> isRetryableError e = false.
Proof.
  intros Hc.
  destruct e; simpl in *; try discriminate; try reflexivity; now rewrite Hc.
Qed.

Lemma nonRetryable_not_retried (e : error) :
  nonRetryable e -> isRetryableError e = false.
Proof.
  intros [Hc | [Hd | (code & status & body & -> & Hs)]].
  - apply isRetryableError_context. now rewrite Hc.
  - apply isRetryableError_context. rewrite Hd. apply orb_true_r.
  - rewrite isRetryableError_status.
    apply not_true_is_false. now rewrite <- retryableStatus_spec.
Qed.

End RetryClassification.

Section RetryLoop.
Import client specs context config.
Local Open Scope Z_scope.
Context {T S : Type}.
Variable ctx : Context.
Variable rand : nat -> Z -> Z.
Variable cfg : RetryConfig.
Variable operation : S -> (T * option error) * S.

(** One iteration of the loop. *)
Lemma retryLoop_step (remaining : nat) (attempt : Z) (result : T)
    (lastErr : option error) (s : S) :
  retryLoop ctx rand cfg operation (Datatypes.S remaining) attempt result lastErr s
  = match ErrBefore ctx (Z.to_nat attempt) with
    | Some err => done (Returned result (Some (Wrapf "operation cancelled" err))) s
    | None =>
        let '((result, lastErr), s) := operation s in
        logged (Attempt attempt)
          match lastErr with
          | None => done (Returned result None) s
          | Some e =>
              if negb (isRetryableError e) then done (Returned result lastErr) s
              else if attempt <? MaxRetries cfg then
                match calculateBackoff (rand (Z.to_nat attempt)) attempt cfg with
                | None => done Panicked s
                | Some delay =>
                    match DoneInBackoff ctx (Z.to_nat attempt) with
                    | Some err =>
                        done (Returned result
                                (Some (Wrapf "operation cancelled during backoff"
                                         err))) s
                    | None =>
                        logged (Wait delay)
                          (retryLoop ctx rand cfg operation remaining
                             (attempt + 1) result lastErr s)
                    end
                end
              else retryLoop ctx rand cfg operation remaining
                     (attempt + 1) result lastErr s
          end
    end.
Proof. reflexivity. Qed.

(** An operation that fails with an error that is not retried ends the
    loop: one attempt, no wait, that error. *)
Lemma retryLoop_returns_at_once (remaining : nat) (attempt : Z) (result res : T)
    (lastErr : option error) (e : error) (s s' : S) :
  ErrBefore ctx (Z.to_nat attempt) = None ->
  operation s = ((res, Some e), s') ->
  isRetryableError e = false ->
  retryLoop ctx rand cfg operation (Datatypes.S remaining) attempt result lastErr s
  = {| outcome := Returned res (Some e); trace := [Attempt attempt]; final := s' |}.
Proof.
  intros Hctx Hop Hnr. rewrite retryLoop_step, Hctx, Hop, Hnr. reflexivity.
Qed.

Lemma logged_Attempt (a : Z) (r : Run T S) :
  outcome (logged (Attempt a) r) = outcome r
  /\ final (logged (Attempt a) r) = final r
  /\ attempts (trace (logged (Attempt a) r)) = Datatypes.S (attempts (trace r))
  /\ waits (trace (logged (Attempt a) r)) = waits (trace r).
Proof. repeat split. Qed.

Lemma logged_Wait (d : Z) (r : Run T S) :
  outcome (logged (Wait d) r) = outcome r
  /\ final (logged (Wait d) r) = final r
  /\ attempts (trace (logged (Wait d) r)) = attempts (trace r)
  /\ waits (trace (logged (Wait d) r)) = d :: waits (trace r).
Proof. repeat split. Qed.


Hypothesis not_cancelled : neverCancelled ctx.
Hypothesis backoff_defined : backoffDefined rand cfg.
Hypothesis always_retryable :
  forall s, exists res e s',
    operation s = ((res, Some e), s') /\ isRetryableError e = true.


End RetryLoop.

(** C4.  When the first attempt of [Execute] is made (the retry count
    is not negative and the context is live when the loop is entered)
    and fails with an error that is not retried, that is a cancellation
    or deadline error or an HTTP status error with a status other than
    429, 502, 503 and 504, then [Execute] returns that very error after
    this one attempt, without a backoff wait. *)
Theorem Execute_non_retryable_single_attempt (net : client.Network)
    (ctx : context.Context) (rand : nat -> Z -> Z) (req : request.Request)
    (w w' : client.World) (res : gojson.any) (e : error) :
  (0 <= config.MaxRetries (config.Retry (client.cfg (client.cl w))))%Z ->
  context.ErrBefore ctx 0 = None ->
  client.execute net req w = ((res, Some e), w') ->
  specs.nonRetryable e ->
  client.Execute net ctx rand req w
  = {| client.outcome := client.Returned res (Some e);
       client.trace := [client.Attempt 0];
       client.final := w' |}
  /\ client.attempts (client.trace (client.Execute net ctx rand req w)) = 1%nat
  /\ client.waits (client.trace (client.Execute net ctx rand req w)) = [].
Proof.
  intros HN Hctx Hop Hnr.
  assert (Hrun : client.Execute net ctx rand req w
                 = {| client.outcome := client.Returned res (Some e);
                      client.trace := [client.Attempt 0];
                      client.final := w' |}).
  { unfold client.Execute, client.doWithRetry.
    replace (Z.to_nat (config.MaxRetries (config.Retry (client.cfg (client.cl w))) + 1))
      with (S (Z.to_nat (config.MaxRetries (config.Retry (client.cfg (client.cl w))))))
      by lia.
    apply retryLoop_returns_at_once;
      [exact Hctx | exact Hop | now apply nonRetryable_not_retried]. }
  rewrite Hrun. repeat split.
Qed.

Lemma Execute_non_retryable_single_attempt_witness :
  client.Execute (fixtures.network (fun _ => 404%Z) "not found")
    context.Background (fun _ _ => 0%Z) fixtures.chat
    (fixtures.world config.DefaultClientConfig)
  = {| client.outcome :=
         client.Returned gojson.Nil (Some (HTTPStatusError 404 "" "not found"));
       client.trace := [client.Attempt 0];
       client.final :=
         {| client.cl := client.setHealthy (client.New config.DefaultClientConfig) false;
            client.mem := ∅; client.marshals := 1; client.calls := 1 |} |}.
Proof.
  apply Execute_non_retryable_single_attempt.
  - vm_compute. discriminate.
  - reflexivity.
  - vm_compute. reflexivity.
  - right. right. exists 404%Z, "", "not found". split; [reflexivity|].
    intros Hs. apply retryableStatus_spec in Hs. discriminate Hs.
Defined.

(** A request cancelled in flight: the transport error wraps
    [context.Canceled], and is returned after the one attempt. *)
Example Execute_cancelled_in_flight :
  let net :=
    {| client.NewRequestErr := fun _ => None;
       client.Do := fun _ r => inr (URLError "Post" (http.URL r) Canceled) |} in
  client.outcome
    (client.Execute net context.Background (fun _ _ => 0%Z) fixtures.chat
       (fixtures.world config.DefaultClientConfig))
  = client.Returned gojson.Nil
      (Some (URLError "Post" "http://host/v1/chat/completions" Canceled)).
Proof. vm_compute. reflexivity. Qed.





(** With jitter on and a base delay under 4ns the bound of the draw is
    zero, on which [rand.Int63n] panics: the retry loop does not return
    after the first failed attempt. *)
Example Execute_panics_without_initial_backoff :
  client.calculateBackoff (fun _ => 0%Z) 0
    (config.Retry fixtures.zeroBackoff) = None
  /\ client.outcome
       (client.Execute (fixtures.network (fun _ => 503%Z) "busy")
          context.Background (fun _ _ => 0%Z) fixtures.chat
          (fixtures.world fixtures.zeroBackoff))
     = client.Panicked.
Proof. split; vm_compute; reflexivity. Qed.

(** ** The health flag *)

Lemma setHealthy_last_write (c : client.client) (a b : bool) :
  client.IsHealthy (client.setHealthy (client.setHealthy c a) b) = b.
Proof. reflexivity. Qed.


(** C6, as amended.  After an attempt that reached the transport the
    health flag reflects the attempt: a transport error, a status other
    than 200 or a failure to process the response leave [IsHealthy()]
    false, a success leaves it true.  An attempt that fails earlier, in
    marshaling, in preparing the request or in building the HTTP
    request, leaves the flag as it was. *)
Theorem execute_health (net : client.Network) (req : request.Request)
    (w : client.World) :
  specs.healthReflectsTransport net req w.
Proof.
  unfold specs.healthReflectsTransport, client.execute, client.callMarshal,
    client.callDo.
  destruct (request.Marshal req (client.mem w)) as [[body|err] h]; simpl;
    [|right; repeat split; discriminate].
  destruct (providers.PrepareRequest _ _ _ _) as [preq|err]; simpl;
    [|right; repeat split; discriminate].
  destruct (client.newRequest net _ preq) as [httpReq|err]; simpl;
    [|right; repeat split; discriminate].
  destruct (client.Do net (client.calls w) httpReq) as [resp|err]; simpl;
    [|left; split; reflexivity].
  destruct (negb (http.StatusCode resp =? http.StatusOK)%Z); simpl;
    [left; split; reflexivity|].
  destruct (providers.ProcessResponse _ resp _) as [result|err]; simpl;
    left; split; reflexivity.
Qed.

(** C6 as stated fails for a failure to marshal: a new client is
    healthy, and stays so after an attempt with a vision request
    without messages, which fails in [req.Marshal()]. *)
Lemma execute_marshal_failure_keeps_healthy :
  ~ specs.healthReflectsOutcome (fixtures.network (fun _ => 200%Z) "")
      fixtures.visionWithoutMessages (fixtures.world config.DefaultClientConfig).
Proof.
  unfold specs.healthReflectsOutcome. vm_compute. discriminate.
Qed.

(** ** The stream decode workers *)

Section Workers.
Import strings protocol response providers context specs.
Context `{Unmarshaler}.
Variable proto : Protocol.

Lemma prepend_nil (s : Stream) : prepend [] s = s.
Proof. now destruct s. Qed.

Lemma push_prepend (c : StreamingChunk) (cs : list StreamingChunk) (s : Stream) :
  push c (prepend cs s) = prepend (c :: cs) s.
Proof. reflexivity. Qed.

Lemma send_live (ctx : Context) (k : nat) (c : StreamingChunk) (s : Stream) :
  neverCancelledAtSend ctx -> send ctx k c s = push c s.
Proof. intros Hctx. unfold send. now rewrite Hctx. Qed.

Lemma HasPrefix_nonempty (l : string) :
  HasPrefix l "data: " = true -> String.eqb l "" = false.
Proof. now destruct l. Qed.

Lemma CutPrefix_line (l pre : string) :
  match CutPrefix l pre with
  | (after, true) => after
  | (_, false) => l
  end = (CutPrefix l pre).1.
Proof. unfold CutPrefix. now destruct (HasPrefix l pre). Qed.

(** *** One line at a time *)

Lemma Ollama_worker_decodes ctx line c rest err k :
  Ollama_decodes proto line c ->
  Ollama_worker ctx proto (line :: rest) err k
  = send ctx k c (Ollama_worker ctx proto rest err (S k)).
Proof.
  intros (Hne & Hnm & Hp). simpl. now rewrite Hne, Hnm, CutPrefix_line, Hp.
Qed.


Lemma Ollama_worker_marker ctx line rest err k :
  Ollama_marker line ->
  Ollama_worker ctx proto (line :: rest) err k = closed ExitDone.
Proof. intros Hm. simpl. now rewrite Hm. Qed.

Lemma Azure_worker_decodes ctx line c rest err k :
  Azure_decodes proto line c ->
  Azure_worker ctx proto (line :: rest) err k
  = send ctx k c (Azure_worker ctx proto rest err (S k)).
Proof.
  intros (Hpre & Hnm & Hp). simpl.
  now rewrite (HasPrefix_nonempty _ Hpre), Hpre, Hnm, Hp.
Qed.


Lemma Azure_worker_marker ctx line rest err k :
  Azure_marker "data: " line ->
  Azure_worker ctx proto (line :: rest) err k = closed ExitDone.
Proof.
  intros (Hpre & Hm). simpl.
  now rewrite (HasPrefix_nonempty _ Hpre), Hpre, Hm.
Qed.

(** *** Runs of lines, for any worker with these steps *)

Section Runs.
Variable worker : Context -> Protocol -> list string -> option error -> nat -> Stream.
Variable decodes : string -> StreamingChunk -> Prop.
Variable malformed marker : string -> Prop.
Hypothesis step_decodes : forall ctx line c rest err k,
  decodes line c ->
  worker ctx proto (line :: rest) err k
  = send ctx k c (worker ctx proto rest err (S k)).
Hypothesis step_malformed : forall ctx line rest err k,
  malformed line ->
  worker ctx proto (line :: rest) err k = worker ctx proto rest err k.
Hypothesis step_marker : forall ctx line rest err k,
  marker line -> worker ctx proto (line :: rest) err k = closed ExitDone.
Hypothesis step_end : forall ctx k,
  worker ctx proto [] None k = closed ExitEOF.
Hypothesis congruence : forall ctx before rest rest' err,
  (forall k, worker ctx proto rest err k = worker ctx proto rest' err k) ->
  forall k, worker ctx proto (before ++ rest)%list err k
            = worker ctx proto (before ++ rest')%list err k.

(** Lines that decode are delivered in order when no send is
    cancelled. *)
Lemma worker_delivers ctx lines cs :
  neverCancelledAtSend ctx ->
  Forall2 decodes lines cs ->
  forall rest err k,
    worker ctx proto (lines ++ rest)%list err k
    = prepend cs (worker ctx proto rest err (k + List.length cs)).
Proof.
  intros Hctx Hd. induction Hd as [|line c lines cs Hc Hd IH]; intros rest err k.
  - simpl. now rewrite prepend_nil, Nat.add_0_r.
  - simpl. rewrite (step_decodes _ _ _ _ _ _ Hc), send_live by exact Hctx.
    rewrite IH, push_prepend. do 2 f_equal. lia.
Qed.

Lemma worker_stops_at_marker : stopsAtMarker proto worker decodes marker.
Proof.
  intros ctx before cs m after err Hctx Hd Hm.
  rewrite (worker_delivers ctx before cs Hctx Hd).
  rewrite (step_marker _ _ _ _ _ Hm). unfold prepend, closed; simpl.
  now rewrite app_nil_r.
Qed.


End Runs.



End Workers.

Section Markers.
Import strings protocol response providers context specs.
Context `{Unmarshaler}.
Variable proto : Protocol.

(** Whatever the context does, a consumer receives from a body with a
    marker what it receives from the body that ends before it. *)
Lemma Ollama_nothing_after_marker ctx before m after err :
  Ollama_marker m ->
  forall k, received (Ollama_worker ctx proto (before ++ m :: after)%list err k)
            = received (Ollama_worker ctx proto before None k).
Proof.
  intros Hm. induction before as [|line before IH]; intros k.
  - rewrite app_nil_l. now rewrite (Ollama_worker_marker proto _ _ _ _ _ Hm).
  - simpl. repeat (destruct (String.eqb _ _); [auto; fail|]).
    destruct (ParseStreamChunk _ _); [|apply IH].
    unfold send. destruct (DoneAtSend ctx k); [reflexivity|].
    simpl. now rewrite IH.
Qed.

Lemma Azure_nothing_after_marker ctx before m after err :
  Azure_marker "data: " m ->
  forall k, received (Azure_worker ctx proto (before ++ m :: after)%list err k)
            = received (Azure_worker ctx proto before None k).
Proof.
  intros Hm. induction before as [|line before IH]; intros k.
  - rewrite app_nil_l. now rewrite (Azure_worker_marker proto _ _ _ _ _ Hm).
  - simpl. destruct (String.eqb _ _); [apply IH|].
    destruct (HasPrefix _ _); simpl; [|apply IH].
    destruct (String.eqb _ _); [reflexivity|].
    destruct (ParseStreamChunk _ _); [|apply IH].
    unfold send. destruct (DoneAtSend ctx k); [reflexivity|].
    simpl. now rewrite IH.
Qed.

End Markers.

(** C2, as amended.  The Ollama worker stops at a line that is
    [data: [DONE]] once trimmed, the Azure worker at a line whose
    payload after the prefix [data: ] is [[DONE]].  When the lines
    before the marker decode and no send is cancelled, a consumer
    receives exactly their chunks, in order, and then finds the channel
    closed; chunk1, chunk2 and the marker give two chunks.  Whatever
    the context does, nothing read after the marker is delivered. *)
Theorem workers_stop_at_marker `{response.Unmarshaler} (proto : protocol.Protocol) :
  specs.workersStopAtMarker proto "data: "
  /\ (forall ctx before m after err k,
        specs.Ollama_marker m ->
        providers.received
          (providers.Ollama_worker ctx proto (before ++ m :: after)%list err k)
        = providers.received (providers.Ollama_worker ctx proto before None k))
  /\ (forall ctx before m after err k,
        specs.Azure_marker "data: " m ->
        providers.received
          (providers.Azure_worker ctx proto (before ++ m :: after)%list err k)
        = providers.received (providers.Azure_worker ctx proto before None k)).
Proof.
  split; [split|split].
  - apply worker_stops_at_marker.
    + apply Ollama_worker_decodes.
    + apply Ollama_worker_marker.
  - apply worker_stops_at_marker.
    + apply Azure_worker_decodes.
    + apply Azure_worker_marker.
  - intros. now apply Ollama_nothing_after_marker.
  - intros. now apply Azure_nothing_after_marker.
Qed.

Lemma workers_stop_at_marker_witness :
  @providers.Ollama_worker fixtures.bracesUnmarshaler context.Background
    protocol.Chat
    [fixtures.dataLine "{chunk1}"; fixtures.dataLine "{chunk2}";
     fixtures.dataLine "[DONE]"; fixtures.dataLine "{chunk3}"] None 0
  = {| providers.received := [fixtures.chunk "chunk1"; fixtures.chunk "chunk2"];
       providers.exit := providers.ExitDone |}
  /\ @providers.Azure_worker fixtures.bracesUnmarshaler context.Background
       protocol.Chat
       [fixtures.dataLine "{chunk1}"; fixtures.dataLine "{chunk2}";
        fixtures.dataLine "[DONE]"; fixtures.dataLine "{chunk3}"] None 0
     = {| providers.received := [fixtures.chunk "chunk1"; fixtures.chunk "chunk2"];
          providers.exit := providers.ExitDone |}.
Proof.
  destruct (@workers_stop_at_marker fixtures.bracesUnmarshaler protocol.Chat)
    as [[Ho Ha] _].
  split.
  - apply (Ho context.Background
             [fixtures.dataLine "{chunk1}"; fixtures.dataLine "{chunk2}"]
             [fixtures.chunk "chunk1"; fixtures.chunk "chunk2"]
             (fixtures.dataLine "[DONE]") [fixtures.dataLine "{chunk3}"] None).
    + intros k. reflexivity.
    + repeat constructor.
    + reflexivity.
  - apply (Ha context.Background
             [fixtures.dataLine "{chunk1}"; fixtures.dataLine "{chunk2}"]
             [fixtures.chunk "chunk1"; fixtures.chunk "chunk2"]
             (fixtures.dataLine "[DONE]") [fixtures.dataLine "{chunk3}"] None).
    + intros k. reflexivity.
    + repeat constructor.
    + split; reflexivity.
Defined.

(** C2 as stated fails for the Azure worker: a line whose payload after
    an [event:] prefix is [[DONE]] lacks the [data: ] prefix and is
    skipped, and the chunk after it is delivered. *)
Lemma Azure_worker_ignores_event_marker :
  ~ @specs.workersStopAtMarker fixtures.bracesUnmarshaler protocol.Chat "event:"
  /\ ~ @specs.workersStopAtMarker fixtures.bracesUnmarshaler protocol.Chat "event: ".
Proof.
  split; intros [_ Ha].
  - specialize (Ha context.Background [] [] ("event:[DONE]" +:+ fixtures.newline)
                  [fixtures.dataLine "{chunk}"] None
                  (fun _ => eq_refl) (List.Forall2_nil _) (conj eq_refl eq_refl)).
    vm_compute in Ha. discriminate Ha.
  - specialize (Ha context.Background [] [] ("event: [DONE]" +:+ fixtures.newline)
                  [fixtures.dataLine "{chunk}"] None
                  (fun _ => eq_refl) (List.Forall2_nil _) (conj eq_refl eq_refl)).
    vm_compute in Ha. discriminate Ha.
Qed.



(** ** Bodies and lines *)

Section Bodies.
Import strings specs.

Lemma readLinesFrom_tail (tail : string) :
  hasNewline tail = false ->
  forall acc, http.readLinesFrom acc tail = ([], acc +:+ tail).
Proof.
  induction tail as [|c tail IH]; intros Hn acc; simpl in *.
  - now rewrite append_nil_r.
  - apply orb_false_elim in Hn as [Hc Ht]. rewrite Hc, (IH Ht).
    now rewrite <- append_assoc.
Qed.

Lemma readLinesFrom_line (line rest : string) :
  hasNewline line = false ->
  forall acc,
    http.readLinesFrom acc (line +:+ fixtures.newline +:+ rest)
    = ((acc +:+ line +:+ fixtures.newline) :: (http.readLines rest).1,
       (http.readLines rest).2).
Proof.
  induction line as [|c line IH]; intros Hn acc.
  - rewrite !append_nil_l. unfold fixtures.newline, byte.
    rewrite append_cons, append_nil_l. simpl. unfold http.readLines.
    now destruct (http.readLinesFrom "" rest).
  - simpl in Hn. apply orb_false_elim in Hn as [Hc Ht].
    rewrite append_cons. simpl. rewrite Hc, (IH Ht).
    rewrite <- (append_assoc acc (String c "")). reflexivity.
Qed.

(** [ReadString] returns the lines of a body one by one, each with its
    delimiter, and the bytes after the last delimiter at the end. *)
Lemma readLines_bodyOf (lines : list string) (tail : string) :
  Forall (fun l => hasNewline l = false) lines ->
  hasNewline tail = false ->
  http.readLines (bodyOf lines tail)
  = (map (fun l => l +:+ fixtures.newline) lines, tail).
Proof.
  intros Hl Ht. induction Hl as [|line lines Hline Hl IH]; simpl.
  - unfold http.readLines. now rewrite readLinesFrom_tail.
  - unfold http.readLines at 1. rewrite readLinesFrom_line by exact Hline.
    now rewrite IH, append_nil_l.
Qed.

End Bodies.

(** A streaming call to a backend that sends chunk1, chunk2 and the
    marker: the caller receives the two chunks and the channel is
    closed; the client is healthy afterwards. *)
Example ExecuteStream_two_chunks_then_done :
  client.ExecuteStream
    (fixtures.network (fun _ => 200%Z)
       (specs.bodyOf ["data: {chunk1}"; ""; "data: {chunk2}"; ""; "data: [DONE]"] ""))
    context.Background fixtures.chat (fixtures.world config.DefaultClientConfig)
  = (inl [fixtures.chunk "chunk1"; fixtures.chunk "chunk2"],
     {| client.cl := client.New config.DefaultClientConfig; client.mem := ∅;
        client.marshals := 1; client.calls := 1 |}).
Proof. vm_compute. reflexivity. Qed.

(** The same with a malformed line between the chunks. *)
Example ExecuteStream_skips_malformed_line :
  client.ExecuteStream
    (fixtures.network (fun _ => 200%Z)
       (specs.bodyOf ["data: {chunk1}"; "data: {chunk2"; "data: {chunk3}"] ""))
    context.Background fixtures.chat (fixtures.world config.DefaultClientConfig)
  = (inl [fixtures.chunk "chunk1"; fixtures.chunk "chunk3"],
     {| client.cl := client.New config.DefaultClientConfig; client.mem := ∅;
        client.marshals := 1; client.calls := 1 |}).
Proof. vm_compute. reflexivity. Qed.

(* ===================================================================== *)
(** * Further properties *)
(* ===================================================================== *)

(** ** Retry classification *)

Lemma isRetryableError_Wrapf (msg : string) (e : error) :
  client.isRetryableError (Wrapf msg e) = client.isRetryableError e.
Proof.
  now rewrite (isRetryableError_equation (Wrapf msg e)), (isRetryableError_equation e).
Qed.

(** X1.  Wrapping an error with [fmt.Errorf] and [%w], or in a
    [url.Error], does not change whether it is retried. *)
Theorem isRetryableError_through_wrappers (e : error) :
  (forall msg, client.isRetryableError (Wrapf msg e) = client.isRetryableError e)
  /\ (forall op url,
        client.isRetryableError (URLError op url e) = client.isRetryableError e).
Proof.
  split; intros.
  - rewrite (isRetryableError_equation (Wrapf msg e)), (isRetryableError_equation e).
    reflexivity.
  - rewrite (isRetryableError_equation (URLError op url e)). simpl.
    pose proof (isRetryableError_equation e) as He.
    destruct (Is e Canceled || Is e DeadlineExceeded); [now rewrite He|].
    destruct (As_HTTPStatusError e); [now rewrite He|].
    destruct (As_OpError e); [now rewrite He|].
    destruct (As_DNSError e) as [[]|]; [now rewrite He|]. reflexivity.
Qed.

(** X2.  An error with [context.Canceled] or [context.DeadlineExceeded]
    anywhere in its chain is not retried, also when a [net.OpError],
    which is retried otherwise, wraps it. *)
Theorem context_errors_never_retried (e : error) (op : string) :
  Is e Canceled || Is e DeadlineExceeded = true ->
  client.isRetryableError e = false
  /\ client.isRetryableError (OpError op e) = false
  /\ client.isRetryableError (OpError op (Errorf "connection refused")) = true.
Proof.
  intros Hc. split; [now apply isRetryableError_context|].
  split; [|reflexivity].
  apply isRetryableError_context. simpl. exact Hc.
Qed.

Lemma context_errors_never_retried_witness :
  client.isRetryableError (URLError "Post" "http://host" DeadlineExceeded) = false
  /\ client.isRetryableError
       (OpError "dial" (URLError "Post" "http://host" DeadlineExceeded)) = false
  /\ client.isRetryableError (OpError "dial" (Errorf "connection refused")) = true.
Proof.
  apply context_errors_never_retried. reflexivity.
Defined.

(** X3.  The order of the checks of the classifier: an HTTP status error
    in the chain decides before a network error is looked for, so a
    [net.OpError] around a 400 is not retried and one around a 503 is;
    without a context error and a status error, a [net.OpError] in the
    chain is retried, and so is a DNS error that is temporary or timed
    out and no other. *)
Theorem isRetryableError_precedence (e : error) :
  Is e Canceled || Is e DeadlineExceeded = false ->
  (forall code, As_HTTPStatusError e = Some code ->
     (client.isRetryableError e = true <-> specs.retryableStatus code))
  /\ (As_HTTPStatusError e = None -> As_OpError e = true ->
        client.isRetryableError e = true)
  /\ (forall temporary timeout,
        As_HTTPStatusError e = None -> As_OpError e = false ->
        As_DNSError e = Some (temporary, timeout) ->
        client.isRetryableError e = temporary || timeout).
Proof.
  intros Hc. rewrite isRetryableError_equation, Hc.
  split; [|split].
  - intros code ->. symmetry. apply retryableStatus_spec.
  - now intros -> ->.
  - now intros temporary timeout -> -> ->.
Qed.

Lemma isRetryableError_precedence_witness :
  (client.isRetryableError (OpError "read" (HTTPStatusError 400 "" "")) = true
   <-> specs.retryableStatus 400)
  /\ (client.isRetryableError (OpError "read" (HTTPStatusError 503 "" "")) = true
      <-> specs.retryableStatus 503).
Proof.
  split.
  - apply (proj1 (isRetryableError_precedence
                    (OpError "read" (HTTPStatusError 400 "" "")) eq_refl)).
    reflexivity.
  - apply (proj1 (isRetryableError_precedence
                    (OpError "read" (HTTPStatusError 503 "" "")) eq_refl)).
    reflexivity.
Defined.

(** ** Backoff *)

(** X4.  Whatever the configuration, the attempt and the draw, a delay
    that is computed does not exceed [MaxBackoff]. *)
Theorem calculateBackoff_at_most_max (Int63n : Z -> Z) (k : Z)
    (cfg : config.RetryConfig) (delay : Z) :
  client.calculateBackoff Int63n k cfg = Some delay ->
  (delay <= config.MaxBackoff cfg)%Z.
Proof.
  unfold client.calculateBackoff.
  destruct (config.Jitter cfg);
    [destruct (Z.leb_spec (client.wrap64 (client.baseDelay k cfg ÷ 4 * 2)) 0);
     [discriminate|]|];
    intros [= <-]; apply Z.le_min_r.
Qed.

Lemma calculateBackoff_at_most_max_witness :
  client.calculateBackoff (fun n => (n - 1)%Z) 9 config.DefaultRetryConfig
  = Some 30000000000%Z
  /\ (30000000000 <= config.MaxBackoff config.DefaultRetryConfig)%Z.
Proof.
  split; [vm_compute; reflexivity|].
  apply (calculateBackoff_at_most_max (fun n => (n - 1)%Z) 9
           config.DefaultRetryConfig 30000000000).
  vm_compute. reflexivity.
Defined.

(** X5.  Without jitter the delay does not shrink from one attempt to a
    later one, for a non-negative initial backoff whose products stay
    within 64 bits; and from the tenth retry on the computation is the
    one of the tenth, with or without jitter. *)
Theorem calculateBackoff_grows_then_saturates (Int63n : Z -> Z) (j k : Z)
    (cfg : config.RetryConfig) :
  (0 <= j <= k)%Z ->
  (0 <= config.InitialBackoff cfg)%Z ->
  (specs.expected k cfg < 2 ^ 63)%Z ->
  (config.Jitter cfg = false ->
     exists dj dk,
       client.calculateBackoff Int63n j cfg = Some dj
       /\ client.calculateBackoff Int63n k cfg = Some dk
       /\ (dj <= dk)%Z)
  /\ ((10 <= k)%Z ->
        client.calculateBackoff Int63n k cfg
        = client.calculateBackoff Int63n 10 cfg).
Proof.
  intros Hjk Hi Hov. split.
  - intros Hj.
    assert (Hpow : (2 ^ Z.min j 10 <= 2 ^ Z.min k 10)%Z)
      by (apply Z.pow_le_mono_r; lia).
    pose proof (pow2_capped j ltac:(lia)) as Hpj.
    assert (Hle : (specs.expected j cfg <= specs.expected k cfg)%Z)
      by (unfold specs.expected; nia).
    assert (H0 : (0 <= specs.expected j cfg)%Z) by (unfold specs.expected; nia).
    change (2 ^ 63)%Z with 9223372036854775808%Z in Hov.
    unfold client.calculateBackoff. rewrite Hj.
    rewrite !baseDelay_expected
      by (try lia; change (2 ^ 63)%Z with 9223372036854775808%Z; lia).
    eexists _, _. split; [reflexivity|]. split; [reflexivity|]. lia.
  - intros Hk. unfold client.calculateBackoff, client.baseDelay.
    now rewrite (Z.min_r k 10) by lia.
Qed.

Lemma calculateBackoff_grows_then_saturates_witness :
  (exists dj dk,
     client.calculateBackoff (fun _ => 0%Z) 2
       {| config.MaxRetries := 20; config.InitialBackoff := config.Second;
          config.MaxBackoff := config.Minute; config.Jitter := false |} = Some dj
     /\ client.calculateBackoff (fun _ => 0%Z) 12
          {| config.MaxRetries := 20; config.InitialBackoff := config.Second;
             config.MaxBackoff := config.Minute; config.Jitter := false |} = Some dk
     /\ (dj <= dk)%Z)
  /\ client.calculateBackoff (fun _ => 0%Z) 12
       {| config.MaxRetries := 20; config.InitialBackoff := config.Second;
          config.MaxBackoff := config.Minute; config.Jitter := false |}
     = client.calculateBackoff (fun _ => 0%Z) 10
         {| config.MaxRetries := 20; config.InitialBackoff := config.Second;
            config.MaxBackoff := config.Minute; config.Jitter := false |}.
Proof.
  destruct (calculateBackoff_grows_then_saturates (fun _ => 0%Z) 2 12
              {| config.MaxRetries := 20; config.InitialBackoff := config.Second;
                 config.MaxBackoff := config.Minute; config.Jitter := false |})
    as [Hgrow Hsat]; [lia | discriminate | reflexivity |].
  split; [apply Hgrow; reflexivity | apply Hsat; lia].
Defined.

(** X6.  For an attempt index [k >= 0] and a non-negative initial
    backoff whose product stays within 64 bits, the computation panics
    (in [rand.Int63n], on a bound of zero) exactly when jitter is on and
    the base delay is below 4ns. *)
Theorem calculateBackoff_panics_iff (Int63n : Z -> Z) (k : Z)
    (cfg : config.RetryConfig) :
  (0 <= k)%Z ->
  (0 <= config.InitialBackoff cfg)%Z ->
  (specs.expected k cfg < 2 ^ 63)%Z ->
  client.calculateBackoff Int63n k cfg = None
  <-> config.Jitter cfg = true /\ (specs.expected k cfg < 4)%Z.
Proof.
  intros Hk Hi Hov.
  assert (He : (0 <= specs.expected k cfg)%Z).
  { unfold specs.expected. pose proof (pow2_capped k Hk). nia. }
  change (2 ^ 63)%Z with 9223372036854775808%Z in Hov.
  unfold client.calculateBackoff.
  rewrite baseDelay_expected
    by (try exact Hk; change (2 ^ 63)%Z with 9223372036854775808%Z; lia).
  set (d := specs.expected k cfg) in *.
  destruct (config.Jitter cfg); [|split; [discriminate | intros [? _]; discriminate]].
  rewrite Z.quot_div_nonneg by lia.
  assert (Hq : (4 * (d / 4) <= d < 4 * (d / 4) + 4)%Z).
  { pose proof (Z.div_mod d 4 ltac:(lia)). pose proof (Z.mod_pos_bound d 4 ltac:(lia)).
    lia. }
  rewrite (wrap64_id (d / 4 * 2))
    by (change (2 ^ 63)%Z with 9223372036854775808%Z; lia).
  destruct (Z.leb_spec (d / 4 * 2) 0); split; try discriminate; try tauto.
  - intros _. split; [reflexivity | lia].
  - intros [_ Hlt]. lia.
Qed.

Lemma calculateBackoff_panics_iff_witness :
  client.calculateBackoff (fun _ => 0%Z) 1
    {| config.MaxRetries := 3; config.InitialBackoff := 1;
       config.MaxBackoff := config.Second; config.Jitter := true |} = None
  <-> true = true /\ (2 < 4)%Z.
Proof.
  apply (calculateBackoff_panics_iff (fun _ => 0%Z) 1
           {| config.MaxRetries := 3; config.InitialBackoff := 1;
              config.MaxBackoff := config.Second; config.Jitter := true |});
    [lia | discriminate | reflexivity].
Defined.

(** ** The retry loop, further *)

Lemma calculateBackoff_capped (Int63n : Z -> Z) (k : Z)
    (cfg : config.RetryConfig) (delay : Z) :
  client.calculateBackoff Int63n k cfg = Some delay ->
  (delay <= config.MaxBackoff cfg)%Z.
Proof.
  unfold client.calculateBackoff.
  destruct (config.Jitter cfg);
    [destruct (client.wrap64 (client.baseDelay k cfg ÷ 4 * 2) <=? 0)%Z;
     [discriminate|]|];
    intros [= <-]; lia.
Qed.

Section RetryLoopBounds.
Import client context config.
Local Open Scope Z_scope.
Context {T S : Type}.
Variable ctx : Context.
Variable rand : nat -> Z -> Z.
Variable cfg : RetryConfig.
Variable operation : S -> (T * option error) * S.

(** The loop with [n] iterations to go makes at most [n] attempts, does
    not wait more often than it attempted, and waits only delays that
    [calculateBackoff] returned. *)
Lemma retryLoop_bounds (n : nat) :
  forall attempt result lastErr s,
    attempt + Z.of_nat n = MaxRetries cfg + 1 ->
    let run := retryLoop ctx rand cfg operation n attempt result lastErr s in
    (attempts (trace run) <= n)%nat
    /\ (List.length (waits (trace run)) <= attempts (trace run))%nat
    /\ (List.length (waits (trace run)) <= Nat.pred n)%nat
    /\ Forall (fun d => d <= MaxBackoff cfg) (waits (trace run)).
Proof.
  induction n as [|n IH]; intros attempt result lastErr s Hn.
  - unfold attempts, waits; simpl. repeat split; try lia; constructor.
  - cbv zeta. rewrite retryLoop_step.
    destruct (ErrBefore ctx (Z.to_nat attempt)); [unfold attempts, waits; simpl; repeat split; try lia; try constructor |].
    destruct (operation s) as [[res [err|]] s1];
      [|unfold attempts, waits; simpl; repeat split; try lia; try constructor].
    destruct (negb (isRetryableError err)); [unfold attempts, waits; simpl; repeat split; try lia; try constructor |].
    destruct (Z.ltb_spec attempt (MaxRetries cfg)); cbv iota.
    + destruct (calculateBackoff _ attempt cfg) as [delay|] eqn:Eb;
        [|unfold attempts, waits; simpl; repeat split; try lia; try constructor].
      destruct (DoneInBackoff ctx (Z.to_nat attempt));
        [unfold attempts, waits; simpl; repeat split; try lia; try constructor |].
      specialize (IH (attempt + 1) res (Some err) s1 ltac:(lia)). cbv zeta in IH.
      destruct IH as (Ha & Hw & Hp & Hf).
      destruct (logged_Attempt attempt
                  (logged (Wait delay)
                     (retryLoop ctx rand cfg operation n (attempt + 1) res (Some err) s1)))
        as (_ & _ & -> & ->).
      destruct (logged_Wait delay
                  (retryLoop ctx rand cfg operation n (attempt + 1) res (Some err) s1))
        as (_ & _ & -> & ->).
      simpl List.length. repeat split; try lia.
      constructor; [|exact Hf].
      now apply (calculateBackoff_capped _ _ _ _ Eb).
    + specialize (IH (attempt + 1) res (Some err) s1 ltac:(lia)). cbv zeta in IH.
      destruct IH as (Ha & Hw & Hp & Hf).
      destruct (logged_Attempt attempt
                  (retryLoop ctx rand cfg operation n (attempt + 1) res (Some err) s1))
        as (_ & _ & -> & ->).
      repeat split; try lia; auto.
Qed.

End RetryLoopBounds.

(** X7.  Whatever the network, the context and the draws do, [Execute]
    makes at most [MaxRetries + 1] attempts, waits at most [MaxRetries]
    times and never more often than it attempted, and no wait is longer
    than [MaxBackoff]. *)
Theorem Execute_attempts_and_waits_bounded (net : client.Network)
    (ctx : context.Context) (rand : nat -> Z -> Z) (req : request.Request)
    (w : client.World) :
  let retry := config.Retry (client.cfg (client.cl w)) in
  let tr := client.trace (client.Execute net ctx rand req w) in
  (client.attempts tr <= Z.to_nat (config.MaxRetries retry + 1))%nat
  /\ (List.length (client.waits tr) <= Z.to_nat (config.MaxRetries retry))%nat
  /\ (List.length (client.waits tr) <= client.attempts tr)%nat
  /\ Forall (fun d => (d <= config.MaxBackoff retry)%Z) (client.waits tr).
Proof.
  intros retry tr. subst tr. unfold client.Execute, client.doWithRetry. fold retry.
  destruct (Z.le_gt_cases (config.MaxRetries retry + 1) 0) as [Hneg|Hpos].
  - replace (Z.to_nat (config.MaxRetries retry + 1)) with 0%nat by lia.
    unfold client.attempts, client.waits; simpl.
    repeat split; try lia; constructor.
  - destruct (retryLoop_bounds ctx rand retry (client.execute net req)
                (Z.to_nat (config.MaxRetries retry + 1)) 0%Z gojson.Nil None w
                ltac:(lia)) as (Ha & Hw & Hp & Hf).
    repeat split; try assumption. lia.
Qed.

Section RetryRecovers.
Import client context config specs.
Local Open Scope Z_scope.
Context {T S : Type}.
Variable ctx : Context.
Variable rand : nat -> Z -> Z.
Variable cfg : RetryConfig.
Variable operation : S -> (T * option error) * S.
Variable st : nat -> S.
Variable j : nat.
Variable res : T.
Variable s' : S.
Hypothesis not_cancelled : neverCancelled ctx.
Hypothesis backoff_defined : backoffDefined rand cfg.
Hypothesis within_retries : Z.of_nat j <= MaxRetries cfg.
Hypothesis failures : forall i, (i < j)%nat ->
  exists r e, operation (st i) = ((r, Some e), st (Datatypes.S i))
              /\ isRetryableError e = true.
Hypothesis success : operation (st j) = ((res, None), s').

(** With [d] failures still to come, the loop at attempt [j - d] makes
    [d + 1] attempts and [d] waits and returns the result. *)
Lemma retryLoop_recovers (d : nat) :
  forall i remaining res0 lastErr,
    (i + d = j)%nat -> (d < remaining)%nat ->
    exists run,
      retryLoop ctx rand cfg operation remaining (Z.of_nat i) res0 lastErr (st i)
      = run
      /\ outcome run = Returned res None
      /\ attempts (trace run) = Datatypes.S d
      /\ List.length (waits (trace run)) = d
      /\ final run = s'.
Proof.
  destruct not_cancelled as [Hbefore Hduring].
  induction d as [|d IH]; intros i remaining res0 lastErr Hi Hrem;
    (destruct remaining as [|remaining]; [lia|]);
    eexists; (split; [reflexivity|]); rewrite retryLoop_step, Hbefore.
  - replace i with j by lia. rewrite success. repeat split.
  - destruct (failures i ltac:(lia)) as (r & e & Hop & Hre).
    rewrite Hop, Hre. simpl negb. cbv iota.
    destruct (Z.ltb_spec (Z.of_nat i) (MaxRetries cfg)); [|lia].
    destruct (calculateBackoff (rand (Z.to_nat (Z.of_nat i))) (Z.of_nat i) cfg)
      as [delay|] eqn:Eb; [|now apply backoff_defined in Eb; [|lia]].
    rewrite Hduring.
    replace (Z.of_nat i + 1) with (Z.of_nat (Datatypes.S i)) by lia.
    destruct (IH (Datatypes.S i) remaining r (Some e) ltac:(lia) ltac:(lia))
      as (run & Hrun & Hout & Hatt & Hw & Hfin).
    rewrite Hrun.
    destruct (logged_Attempt (Z.of_nat i) (logged (Wait delay) run))
      as (-> & -> & -> & ->).
    destruct (logged_Wait delay run) as (-> & -> & -> & ->).
    simpl List.length. now rewrite Hatt, Hw.
Qed.

End RetryRecovers.

(** X8.  When the first [j <= MaxRetries] attempts fail with retried
    errors and the next one succeeds, the context is not cancelled and
    the backoffs are defined, [Execute] returns the result of that
    attempt without an error, after [j + 1] attempts and [j] waits. *)
Theorem Execute_recovers_after_transient_failures (net : client.Network)
    (ctx : context.Context) (rand : nat -> Z -> Z) (req : request.Request)
    (j : nat) (st : nat -> client.World) (res : gojson.any) (w' : client.World) :
  extras.failsThenSucceeds net req j st res w' ->
  (Z.of_nat j <= config.MaxRetries (config.Retry (client.cfg (client.cl (st 0%nat)))))%Z ->
  specs.neverCancelled ctx ->
  specs.backoffDefined rand (config.Retry (client.cfg (client.cl (st 0%nat)))) ->
  exists run,
    client.Execute net ctx rand req (st 0%nat) = run
    /\ client.outcome run = client.Returned res None
    /\ client.attempts (client.trace run) = S j
    /\ List.length (client.waits (client.trace run)) = j
    /\ client.final run = w'.
Proof.
  intros [Hfail Hok] Hj Hctx Hbk. unfold client.Execute, client.doWithRetry.
  apply (retryLoop_recovers ctx rand _ (client.execute net req) st j res w'
           Hctx Hbk Hj Hfail Hok j 0%nat); lia.
Qed.

Lemma Execute_recovers_after_transient_failures_witness :
  exists run,
    client.Execute extras.flaky context.Background (fun _ _ => 0%Z) fixtures.chat
      (extras.afterFailures 0) = run
    /\ client.outcome run = client.Returned (gojson.Str "ok") None
    /\ client.attempts (client.trace run) = 3%nat
    /\ List.length (client.waits (client.trace run)) = 2%nat
    /\ client.final run
       = {| client.cl := client.New config.DefaultClientConfig; client.mem := ∅;
            client.marshals := 3; client.calls := 3 |}.
Proof.
  apply (Execute_recovers_after_transient_failures extras.flaky context.Background
           (fun _ _ => 0%Z) fixtures.chat 2 extras.afterFailures).
  - split; [|vm_compute; reflexivity].
    intros [|[|i]] Hi; [| |lia];
      exists gojson.Nil, (HTTPStatusError 503 "" "ok"); split; vm_compute; reflexivity.
  - vm_compute. discriminate.
  - split; reflexivity.
  - intros k Hk. simpl in Hk.
    assert (Hc : k = 0%Z \/ k = 1%Z \/ k = 2%Z) by lia.
    destruct Hc as [-> | [-> | ->]]; vm_compute; discriminate.
Defined.

(** X9.  With a context that is done when [Execute] is entered, the
    request is not attempted at all: nothing is marshaled or sent, the
    world is as before, and the error returned wraps the context's
    error, so that [errors.Is] still finds it. *)
Theorem Execute_cancelled_before_first_attempt (net : client.Network)
    (ctx : context.Context) (rand : nat -> Z -> Z) (req : request.Request)
    (w : client.World) (err : error) :
  (0 <= config.MaxRetries (config.Retry (client.cfg (client.cl w))))%Z ->
  context.ErrBefore ctx 0 = Some err ->
  client.Execute net ctx rand req w
  = {| client.outcome :=
         client.Returned gojson.Nil (Some (Wrapf "operation cancelled" err));
       client.trace := [];
       client.final := w |}
  /\ (forall target, Is (Wrapf "operation cancelled" err) target = Is err target)
  /\ client.isRetryableError (Wrapf "operation cancelled" err)
     = client.isRetryableError err.
Proof.
  intros HN Hctx. split; [|split].
  - unfold client.Execute, client.doWithRetry.
    replace (Z.to_nat (config.MaxRetries (config.Retry (client.cfg (client.cl w))) + 1))
      with (S (Z.to_nat (config.MaxRetries (config.Retry (client.cfg (client.cl w))))))
      by lia.
    rewrite retryLoop_step. change (Z.to_nat 0) with 0%nat. now rewrite Hctx.
  - intros target. simpl. now destruct target.
  - apply isRetryableError_Wrapf.
Qed.

Lemma Execute_cancelled_before_first_attempt_witness :
  client.Execute (fixtures.network (fun _ => 200%Z) "ok") extras.cancelledBefore
    (fun _ _ => 0%Z) fixtures.chat (fixtures.world config.DefaultClientConfig)
  = {| client.outcome :=
         client.Returned gojson.Nil (Some (Wrapf "operation cancelled" Canceled));
       client.trace := [];
       client.final := fixtures.world config.DefaultClientConfig |}.
Proof.
  apply Execute_cancelled_before_first_attempt.
  - vm_compute. discriminate.
  - reflexivity.
Defined.

(** X10.  With a negative [MaxRetries] the loop body never runs:
    [Execute] makes no attempt, for any request and context, and
    returns a "max retries exceeded" error that wraps nothing, the
    last error being [nil]. *)
Theorem Execute_negative_retry_count (net : client.Network)
    (ctx : context.Context) (rand : nat -> Z -> Z) (req : request.Request)
    (w : client.World) :
  (config.MaxRetries (config.Retry (client.cfg (client.cl w))) < 0)%Z ->
  exists err,
    client.Execute net ctx rand req w
    = {| client.outcome := client.Returned gojson.Nil (Some err);
         client.trace := [];
         client.final := w |}
    /\ Unwrap err = None
    /\ client.isRetryableError err = false.
Proof.
  intros HN. unfold client.Execute, client.doWithRetry.
  replace (Z.to_nat (config.MaxRetries (config.Retry (client.cfg (client.cl w))) + 1))
    with 0%nat by lia.
  eexists. split; [reflexivity|]. split; reflexivity.
Qed.

Lemma Execute_negative_retry_count_witness :
  exists err,
    client.Execute (fixtures.network (fun _ => 200%Z) "ok") context.Background
      (fun _ _ => 0%Z) fixtures.chat
      (fixtures.world
         {| config.Timeout := config.Minute;
            config.Retry :=
              {| config.MaxRetries := -1; config.InitialBackoff := config.Second;
                 config.MaxBackoff := config.Minute; config.Jitter := false |};
            config.ConnectionPoolSize := 10;
            config.ConnectionTimeout := config.Second |})
    = {| client.outcome := client.Returned gojson.Nil (Some err);
         client.trace := [];
         client.final :=
           fixtures.world
             {| config.Timeout := config.Minute;
                config.Retry :=
                  {| config.MaxRetries := -1; config.InitialBackoff := config.Second;
                     config.MaxBackoff := config.Minute; config.Jitter := false |};
                config.ConnectionPoolSize := 10;
                config.ConnectionTimeout := config.Second |} |}
    /\ Unwrap err = None
    /\ client.isRetryableError err = false.
Proof.
  apply Execute_negative_retry_count. reflexivity.
Defined.

(** ** Failures before the transport *)



Lemma execute_prepare_failure (net : client.Network) (req : request.Request)
    (w : client.World) (body : gojson.json) (h : providers.heap) (err : error) :
  request.Marshal req (client.mem w) = (inl body, h) ->
  providers.PrepareRequest (request.Provider req) (request.Protocol req) body
    (request.Headers req) = inr err ->
  client.execute net req w
  = ((gojson.Nil, Some (Wrapf "failed to prepare request" err)),
     {| client.cl := client.cl w; client.mem := h;
        client.marshals := S (client.marshals w); client.calls := client.calls w |}).
Proof.
  intros Hm Hp. unfold client.execute, client.callMarshal. rewrite Hm.
  simpl. now rewrite Hp.
Qed.

(** X12.  A request for which the provider cannot prepare the HTTP
    request (its endpoint resolution fails, as for a protocol the
    backend does not know), with an error that is not retried, ends
    [Execute] after one attempt without a call of [httpClient.Do] and
    with the health flag as before. *)
Theorem Execute_prepare_failure_no_network (net : client.Network)
    (ctx : context.Context) (rand : nat -> Z -> Z) (req : request.Request)
    (w : client.World) (body : gojson.json) (h : providers.heap) (err : error) :
  (0 <= config.MaxRetries (config.Retry (client.cfg (client.cl w))))%Z ->
  context.ErrBefore ctx 0 = None ->
  request.Marshal req (client.mem w) = (inl body, h) ->
  providers.PrepareRequest (request.Provider req) (request.Protocol req) body
    (request.Headers req) = inr err ->
  client.isRetryableError err = false ->
  let run := client.Execute net ctx rand req w in
  client.outcome run
  = client.Returned gojson.Nil (Some (Wrapf "failed to prepare request" err))
  /\ client.trace run = [client.Attempt 0]
  /\ client.calls (client.final run) = client.calls w
  /\ client.cl (client.final run) = client.cl w.
Proof.
  intros HN Hctx Hm Hp Hnr run. subst run.
  unfold client.Execute, client.doWithRetry.
  replace (Z.to_nat (config.MaxRetries (config.Retry (client.cfg (client.cl w))) + 1))
    with (S (Z.to_nat (config.MaxRetries (config.Retry (client.cfg (client.cl w))))))
    by lia.
  rewrite (retryLoop_returns_at_once ctx rand _ (client.execute net req) _ 0%Z
             gojson.Nil gojson.Nil None (Wrapf "failed to prepare request" err) w
             _ Hctx (execute_prepare_failure net req w body h err Hm Hp)).
  - repeat split.
  - now rewrite isRetryableError_Wrapf.
Qed.

Lemma Execute_prepare_failure_no_network_witness :
  client.outcome
    (client.Execute (fixtures.network (fun _ => 200%Z) "ok") context.Background
       (fun _ _ => 0%Z) extras.audio (fixtures.world config.DefaultClientConfig))
  = client.Returned gojson.Nil
      (Some (Wrapf "failed to prepare request"
               (Errorf "protocol audio not supported by Ollama")))
  /\ client.trace
       (client.Execute (fixtures.network (fun _ => 200%Z) "ok") context.Background
          (fun _ _ => 0%Z) extras.audio (fixtures.world config.DefaultClientConfig))
     = [client.Attempt 0]
  /\ client.calls
       (client.final
          (client.Execute (fixtures.network (fun _ => 200%Z) "ok")
             context.Background (fun _ _ => 0%Z) extras.audio
             (fixtures.world config.DefaultClientConfig)))
     = 0%nat.
Proof.
  destruct (Execute_prepare_failure_no_network
              (fixtures.network (fun _ => 200%Z) "ok") context.Background
              (fun _ _ => 0%Z) extras.audio
              (fixtures.world config.DefaultClientConfig) gojson.JNull ∅
              (Errorf "protocol audio not supported by Ollama"))
    as (Ho & Ht & Hc & _); [vm_compute; discriminate | reflexivity
                           | reflexivity | vm_compute; reflexivity | reflexivity |].
  repeat split; assumption.
Defined.

(** ** Streaming execution *)

(** X13.  [ExecuteStream] calls [httpClient.Do] at most once, whatever
    the answer, and [req.Marshal()] at most once: a streaming request
    is never retried.  When it returns an error without having called
    the transport, the health flag is as before. *)
Theorem ExecuteStream_at_most_one_call (net : client.Network)
    (ctx : context.Context) (req : request.Request) (w : client.World) :
  let '(result, w') := client.ExecuteStream net ctx req w in
  (client.calls w' <= S (client.calls w))%nat
  /\ (client.calls w <= client.calls w')%nat
  /\ (client.marshals w' <= S (client.marshals w))%nat
  /\ (client.calls w' = client.calls w ->
        client.cl w' = client.cl w /\ exists err, result = inr err).
Proof.
  unfold client.ExecuteStream.
  destruct (negb (protocol.SupportsStreaming (request.Protocol req)));
    [repeat split; eauto|].
  unfold client.executeStream, client.callMarshal, client.callDo.
  destruct (request.Marshal req (client.mem w)) as [[body|err] h]; simpl;
    [|repeat split; eauto].
  destruct (providers.PrepareStreamRequest _ _ _ _) as [preq|err]; simpl;
    [|repeat split; eauto].
  destruct (client.newRequest net _ preq) as [httpReq|err]; simpl;
    [|repeat split; eauto].
  destruct (client.Do net (client.calls w) httpReq) as [resp|err]; simpl;
    [|repeat split; auto; lia].
  destruct (negb (http.StatusCode resp =? http.StatusOK)%Z); simpl;
    [repeat split; auto; lia|].
  destruct (providers.ProcessStreamResponse _ ctx resp _) as [stream|err]; simpl;
    [|repeat split; auto; lia].
  destruct (client.forward ctx (providers.received stream) 0) as [out [|]]; simpl;
    repeat split; auto; lia.
Qed.

(** X14.  A streaming request answered with a status other than 200, a
    retried one such as 503 included, fails after that single call with
    an error that carries the status and the body, and leaves the
    client unhealthy. *)
Theorem ExecuteStream_status_error (net : client.Network) (ctx : context.Context)
    (req : request.Request) (w : client.World) (body : gojson.json)
    (h : providers.heap) (preq : providers.Request) (httpReq : http.Request)
    (resp : http.Response) :
  protocol.SupportsStreaming (request.Protocol req) = true ->
  request.Marshal req (client.mem w) = (inl body, h) ->
  providers.PrepareStreamRequest (request.Provider req) (request.Protocol req) body
    (request.Headers req) = inl preq ->
  client.newRequest net (request.Provider req) preq = inl httpReq ->
  client.Do net (client.calls w) httpReq = inl resp ->
  http.StatusCode resp <> http.StatusOK ->
  client.ExecuteStream net ctx req w
  = (inr (Errorf ("streaming request failed with status "
                  +:+ pretty (http.StatusCode resp) +:+ ": "
                  +:+ http.data (http.RespBody resp))),
     {| client.cl := client.setHealthy (client.cl w) false; client.mem := h;
        client.marshals := S (client.marshals w);
        client.calls := S (client.calls w) |}).
Proof.
  intros Hs Hm Hp Hr Hd Hne.
  unfold client.ExecuteStream. rewrite Hs. simpl negb. cbv iota.
  unfold client.executeStream, client.callMarshal, client.callDo.
  rewrite Hm. simpl. rewrite Hp, Hr. simpl. rewrite Hd.
  destruct (Z.eqb_spec (http.StatusCode resp) http.StatusOK); [contradiction|].
  reflexivity.
Qed.

Lemma ExecuteStream_status_error_witness :
  client.ExecuteStream (fixtures.network (fun _ => 503%Z) "busy") context.Background
    fixtures.chat (fixtures.world config.DefaultClientConfig)
  = (inr (Errorf "streaming request failed with status 503: busy"),
     {| client.cl := client.setHealthy (client.New config.DefaultClientConfig) false;
        client.mem := ∅; client.marshals := 1; client.calls := 1 |}).
Proof.
  eapply (ExecuteStream_status_error (fixtures.network (fun _ => 503%Z) "busy")
            context.Background fixtures.chat
            (fixtures.world config.DefaultClientConfig) _ ∅ _ _
            {| http.StatusCode := 503; http.Status := "";
               http.RespBody := {| http.data := "busy"; http.readErr := None |} |}).
  - reflexivity.
  - vm_compute. reflexivity.
  - reflexivity.
  - reflexivity.
  - reflexivity.
  - discriminate.
Defined.

(** ** Attempts that reach the transport *)

(** X15.  An attempt answered with any status other than 200, the other
    2xx statuses included, fails with an [HTTPStatusError] that carries
    the status code, the status text and the bytes read from the body
    (a read error is ignored); the provider's [ProcessResponse] is not
    consulted and the client is unhealthy afterwards. *)
Theorem execute_status_error (net : client.Network) (req : request.Request)
    (w : client.World) (body : gojson.json) (h : providers.heap)
    (preq : providers.Request) (httpReq : http.Request) (resp : http.Response) :
  request.Marshal req (client.mem w) = (inl body, h) ->
  providers.PrepareRequest (request.Provider req) (request.Protocol req) body
    (request.Headers req) = inl preq ->
  client.newRequest net (request.Provider req) preq = inl httpReq ->
  client.Do net (client.calls w) httpReq = inl resp ->
  http.StatusCode resp <> http.StatusOK ->
  client.execute net req w
  = ((gojson.Nil,
      Some (HTTPStatusError (http.StatusCode resp) (http.Status resp)
              (http.data (http.RespBody resp)))),
     {| client.cl := client.setHealthy (client.cl w) false; client.mem := h;
        client.marshals := S (client.marshals w);
        client.calls := S (client.calls w) |}).
Proof.
  intros Hm Hp Hr Hd Hne.
  unfold client.execute, client.callMarshal, client.callDo.
  rewrite Hm. simpl. rewrite Hp, Hr. simpl. rewrite Hd.
  destruct (Z.eqb_spec (http.StatusCode resp) http.StatusOK); [contradiction|].
  reflexivity.
Qed.

Lemma execute_status_error_witness :
  client.execute (fixtures.network (fun _ => 201%Z) "created") fixtures.chat
    (fixtures.world config.DefaultClientConfig)
  = ((gojson.Nil, Some (HTTPStatusError 201 "" "created")),
     {| client.cl := client.setHealthy (client.New config.DefaultClientConfig) false;
        client.mem := ∅; client.marshals := 1; client.calls := 1 |}).
Proof.
  eapply (execute_status_error (fixtures.network (fun _ => 201%Z) "created")
            fixtures.chat (fixtures.world config.DefaultClientConfig) _ ∅ _ _
            {| http.StatusCode := 201; http.Status := "";
               http.RespBody := {| http.data := "created"; http.readErr := None |} |}).
  - vm_compute. reflexivity.
  - reflexivity.
  - reflexivity.
  - reflexivity.
  - discriminate.
Defined.

(** ** Endpoints and prepared requests *)

Section Endpoints.
Import strings protocol response providers.
Context `{Unmarshaler}.

Lemma IsValid_spec (p : Protocol) :
  IsValid p = true <-> p ∈ ValidProtocols.
Proof.
  unfold IsValid, ValidProtocols. rewrite !elem_of_cons, elem_of_nil.
  repeat case_decide; split; intros; try tauto; try discriminate.
Qed.

Lemma endpoints_lookup (chat embeddings : string) (proto : Protocol) :
  (<[Chat := chat]> (<[Vision := chat]> (<[Tools := chat]>
     (<[Embeddings := embeddings]> (∅ : gmap Protocol string))))) !! proto
  = if decide (proto = Chat) then Some chat
    else if decide (proto = Vision) then Some chat
    else if decide (proto = Tools) then Some chat
    else if decide (proto = Embeddings) then Some embeddings
    else None.
Proof.
  repeat case_decide; subst;
    repeat (first [rewrite lookup_insert_eq | rewrite lookup_insert_ne by congruence]);
    reflexivity.
Qed.

End Endpoints.

(** X16.  Both backends resolve an endpoint exactly for the four valid
    protocols; chat, vision and tools share one URL; any other
    protocol gives the "not supported" error that names it. *)
Theorem Endpoint_succeeds_iff_valid (op : providers.OllamaProvider)
    (ap : providers.AzureProvider) (proto : protocol.Protocol) :
  (protocol.IsValid proto = true
   <-> exists url, providers.Ollama_Endpoint op proto = inl url)
  /\ (protocol.IsValid proto = true
      <-> exists url, providers.Azure_Endpoint ap proto = inl url)
  /\ (proto ∈ [protocol.Chat; protocol.Vision; protocol.Tools] ->
        providers.Ollama_Endpoint op proto
        = providers.Ollama_Endpoint op protocol.Chat
        /\ providers.Azure_Endpoint ap proto
           = providers.Azure_Endpoint ap protocol.Chat)
  /\ (protocol.IsValid proto = false ->
        providers.Ollama_Endpoint op proto
        = inr (Errorf ("protocol " +:+ proto +:+ " not supported by Ollama"))
        /\ providers.Azure_Endpoint ap proto
           = inr (Errorf ("protocol " +:+ proto +:+ " not supported by Azure"))).
Proof.
  unfold providers.Ollama_Endpoint, providers.Azure_Endpoint,
    providers.Ollama_endpoints, providers.Azure_endpoints, protocol.IsValid.
  rewrite !endpoints_lookup.
  repeat split; intros;
    repeat match goal with
      | H : _ ∈ _ :: _ |- _ => apply elem_of_cons in H as [->|H]
      | H : _ ∈ [] |- _ => now apply elem_of_nil in H
      | H : exists _, _ |- _ => destruct H
      end;
    repeat case_decide; subst; try congruence; try reflexivity; eauto.
Qed.

Section Prepared.
Import strings protocol response providers.

Lemma streamHeaders_lookup (headers : gmap string string) (key : string) :
  streamHeaders headers !! key
  = if decide (key = "Cache-Control") then Some "no-cache"
    else if decide (key = "Accept") then Some "text/event-stream"
    else headers !! key.
Proof.
  unfold streamHeaders, maps_Copy.
  repeat case_decide; subst;
    repeat (first [rewrite lookup_insert_eq | rewrite lookup_insert_ne by congruence]);
    try reflexivity.
  rewrite lookup_union_l by apply lookup_empty. reflexivity.
Qed.

End Prepared.

(** X17.  A prepared streaming request differs from the prepared
    request only in its headers: same URL and body, and failure
    exactly when the endpoint is not resolved.  Its headers are the
    caller's, with [Accept: text/event-stream] and
    [Cache-Control: no-cache] set over whatever the caller had under
    these names. *)
Theorem PrepareStreamRequest_adds_stream_headers (op : providers.OllamaProvider)
    (proto : protocol.Protocol) (body : gojson.json) (headers : gmap string string) :
  match providers.Ollama_PrepareRequest op proto body headers,
        providers.Ollama_PrepareStreamRequest op proto body headers with
  | inl r, inl s =>
      providers.URL s = providers.URL r
      /\ providers.Body s = body /\ providers.Body r = body
      /\ providers.Headers r = headers
      /\ providers.Headers s !! "Accept" = Some "text/event-stream"
      /\ providers.Headers s !! "Cache-Control" = Some "no-cache"
      /\ (forall key, key <> "Accept" -> key <> "Cache-Control" ->
            providers.Headers s !! key = headers !! key)
  | inr e, inr e' => e = e' /\ providers.Ollama_Endpoint op proto = inr e
  | _, _ => False
  end.
Proof.
  unfold providers.Ollama_PrepareRequest, providers.Ollama_PrepareStreamRequest.
  destruct (providers.Ollama_Endpoint op proto) as [url|e]; [|split; reflexivity].
  simpl. repeat split; try (rewrite streamHeaders_lookup; reflexivity).
  intros key Ha Hc. rewrite streamHeaders_lookup.
  repeat case_decide; congruence.
Qed.

(** ** Construction of the Azure provider *)

Section AzureConstruction.
Import strings protocol gojson response providers extras.
Context `{Unmarshaler}.

Lemma requiredOption_spec (c : ProviderConfig) (key v : string) :
  requiredOption c key = inl v
  <-> Cfg_Options c !! key = Some (Str v) /\ v <> "".
Proof.
  unfold requiredOption.
  destruct (Cfg_Options c !! key) as [[| | |s| | |]|];
    try (split; [discriminate | intros [? _]; discriminate]).
  destruct (String.eqb_spec s ""); split.
  - discriminate.
  - intros [[= ->] Hne]. contradiction.
  - intros [= ->]. auto.
  - intros [[= ->] _]. reflexivity.
Qed.

Lemma requiredOption_error (c : ProviderConfig) (key : string) (e : error) :
  requiredOption c key = inr e ->
  e = Errorf (key +:+ " is required for Azure provider").
Proof.
  unfold requiredOption.
  destruct (Cfg_Options c !! key) as [[| | |s| | |]|]; try (now intros [= <-]).
  destruct (String.eqb s ""); [now intros [= <-] | discriminate].
Qed.

Lemma azureOptions_required (c : ProviderConfig) (d a t v : string) :
  azureOptions c d a t v ->
  requiredOption c "deployment" = inl d
  /\ requiredOption c "auth_type" = inl a
  /\ requiredOption c "token" = inl t
  /\ requiredOption c "api_version" = inl v.
Proof.
  intros (Hd & Hdn & Ha & Han & Ht & Htn & Hv & Hvn).
  repeat split; apply requiredOption_spec; auto.
Qed.

End AzureConstruction.

(** X18.  [NewAzure] succeeds exactly when the options [deployment],
    [auth_type], [token] and [api_version] are all non-empty strings;
    the provider then resolves the chat protocol to
    [base/deployments/<deployment>/chat/completions?api-version=<version>],
    the base URL taken as configured.  Otherwise the error names a
    missing option, the deployment first. *)
Theorem NewAzure_succeeds_iff `{response.Unmarshaler} (c : providers.ProviderConfig) :
  ((exists p, providers.NewAzure c = inl p)
   <-> exists d a t v, extras.azureOptions c d a t v)
  /\ (forall d a t v, extras.azureOptions c d a t v ->
        exists p, providers.NewAzure c = inl p
          /\ providers.Endpoint p protocol.Chat
             = inl (providers.Cfg_BaseURL c +:+ "/deployments/" +:+ d
                    +:+ "/chat/completions" +:+ "?api-version=" +:+ v))
  /\ (forall e, providers.NewAzure c = inr e ->
        exists key, key ∈ ["deployment"; "auth_type"; "token"; "api_version"]
          /\ e = Errorf (key +:+ " is required for Azure provider"))
  /\ ((forall d, providers.Cfg_Options c !! "deployment" <> Some (gojson.Str d)) ->
        providers.NewAzure c
        = inr (Errorf "deployment is required for Azure provider")).
Proof.
  unfold providers.NewAzure.
  destruct (providers.requiredOption c "deployment") as [d|e1] eqn:E1;
    [destruct (providers.requiredOption c "auth_type") as [a|e2] eqn:E2;
     [destruct (providers.requiredOption c "token") as [t|e3] eqn:E3;
      [destruct (providers.requiredOption c "api_version") as [v|e4] eqn:E4|]|]|].
  - pose proof (proj1 (requiredOption_spec _ _ _) E1) as [Hd1 Hd2].
    pose proof (proj1 (requiredOption_spec _ _ _) E2) as [Ha1 Ha2].
    pose proof (proj1 (requiredOption_spec _ _ _) E3) as [Ht1 Ht2].
    pose proof (proj1 (requiredOption_spec _ _ _) E4) as [Hv1 Hv2].
    split; [split|split; [|split]].
    + intros _. exists d, a, t, v. repeat split; assumption.
    + intros _. eexists; reflexivity.
    + intros d' a' t' v' Hopt.
      apply azureOptions_required in Hopt as (H1 & H2 & H3 & H4).
      assert (d' = d) by congruence. assert (v' = v) by congruence. subst.
      eexists; split; [reflexivity|]. simpl.
      unfold providers.Azure_Endpoint, providers.Azure_endpoints.
      rewrite endpoints_lookup. simpl.
      rewrite <- !append_assoc. reflexivity.
    + intros e [=].
    + intros Hno. now destruct (Hno d).
  - pose proof (requiredOption_error _ _ _ E4) as ->.
    pose proof (proj1 (requiredOption_spec _ _ _) E1) as [Hd1 Hd2].
    split; [split|split; [|split]].
    + intros [p Hp]. discriminate.
    + intros (d' & a' & t' & v' & Hopt).
      apply azureOptions_required in Hopt as (H1 & H2 & H3 & H4). congruence.
    + intros d' a' t' v' Hopt.
      apply azureOptions_required in Hopt as (H1 & H2 & H3 & H4). congruence.
    + intros e [= <-]. exists "api_version". split; [set_solver | reflexivity].
    + intros Hno. now destruct (Hno d).
  - pose proof (requiredOption_error _ _ _ E3) as ->.
    pose proof (proj1 (requiredOption_spec _ _ _) E1) as [Hd1 Hd2].
    split; [split|split; [|split]].
    + intros [p Hp]. discriminate.
    + intros (d' & a' & t' & v' & Hopt).
      apply azureOptions_required in Hopt as (H1 & H2 & H3 & H4). congruence.
    + intros d' a' t' v' Hopt.
      apply azureOptions_required in Hopt as (H1 & H2 & H3 & H4). congruence.
    + intros e [= <-]. exists "token". split; [set_solver | reflexivity].
    + intros Hno. now destruct (Hno d).
  - pose proof (requiredOption_error _ _ _ E2) as ->.
    pose proof (proj1 (requiredOption_spec _ _ _) E1) as [Hd1 Hd2].
    split; [split|split; [|split]].
    + intros [p Hp]. discriminate.
    + intros (d' & a' & t' & v' & Hopt).
      apply azureOptions_required in Hopt as (H1 & H2 & H3 & H4). congruence.
    + intros d' a' t' v' Hopt.
      apply azureOptions_required in Hopt as (H1 & H2 & H3 & H4). congruence.
    + intros e [= <-]. exists "auth_type". split; [set_solver | reflexivity].
    + intros Hno. now destruct (Hno d).
  - pose proof (requiredOption_error _ _ _ E1) as ->.
    split; [split|split; [|split]].
    + intros [p Hp]. discriminate.
    + intros (d' & a' & t' & v' & Hopt).
      apply azureOptions_required in Hopt as (H1 & H2 & H3 & H4). congruence.
    + intros d' a' t' v' Hopt.
      apply azureOptions_required in Hopt as (H1 & H2 & H3 & H4). congruence.
    + intros e [= <-]. exists "deployment". split; [set_solver | reflexivity].
    + reflexivity.
Qed.

Lemma NewAzure_succeeds_iff_witness :
  exists p, @providers.NewAzure fixtures.bracesUnmarshaler extras.azureConfig = inl p
    /\ providers.Endpoint p protocol.Chat
       = inl "https://x.openai.azure.com/openai/deployments/gpt/chat/completions?api-version=2024-02-01".
Proof.
  apply (proj1 (proj2 (@NewAzure_succeeds_iff fixtures.bracesUnmarshaler
                         extras.azureConfig)) "gpt" "api_key" "secret" "2024-02-01").
  repeat split; discriminate.
Defined.

(** ** Marshaling *)

Section MarshalFacts.
Import strings protocol gojson providers extras.


Lemma Marshal_cases (proto : Protocol) (h : heap) (data : Data) :
  Marshal proto h data = marshalChat h data
  \/ Marshal proto h data = marshalVision h data
  \/ Marshal proto h data = marshalTools h data
  \/ Marshal proto h data = marshalEmbeddings h data
  \/ Marshal proto h data = (inr (Errorf ("unsupported protocol: " +:+ proto)), h).
Proof. unfold Marshal. repeat case_decide; auto. Qed.


End MarshalFacts.


Section MarshalShape.
Import strings protocol gojson providers extras.



(** The document of a successful marshaling: the options over the
    built-in entries. *)
Lemma marshaled_object (combined opts : gmap string any) :
  exists obj, gojson.Marshal (Map (maps_Copy combined opts)) = JObject obj
    /\ (forall k v, opts !! k = Some v -> obj !! k = Some (gojson.Marshal v))
    /\ (forall k, opts !! k = None -> obj !! k = gojson.Marshal <$> combined !! k).
Proof.
  eexists. split; [reflexivity|]. unfold maps_Copy. split.
  - intros k v Hk. rewrite lookup_fmap. now rewrite (lookup_union_Some_l _ _ _ _ Hk).
  - intros k Hk. rewrite lookup_fmap. now rewrite lookup_union_r.
Qed.

End MarshalShape.



(** X21.  In the document of a successful marshaling, for every
    protocol, each option of the payload is an entry of the root
    object with its value, over the built-in entries of the same name;
    without a [model] option, [model] is the payload's model name. *)
Theorem Marshal_options_at_root (proto : protocol.Protocol) (h h' : providers.heap)
    (data : providers.Data) (doc : gojson.json) :
  providers.Marshal proto h data = (inl doc, h') ->
  exists obj, doc = gojson.JObject obj
    /\ (forall k v, extras.optionsOf data !! k = Some v ->
          obj !! k = Some (gojson.Marshal v))
    /\ (extras.optionsOf data !! "model" = None ->
          obj !! "model" = Some (gojson.JString (extras.modelOf data))).
Proof.
  intros Hrun.
  assert (Hshape : exists combined,
             doc = gojson.Marshal
                     (gojson.Map (providers.maps_Copy combined (extras.optionsOf data)))
             /\ combined !! "model" = Some (gojson.Str (extras.modelOf data))).
  { destruct (Marshal_cases proto h data) as [E | [E | [E | [E | E]]]];
      rewrite E in Hrun; try discriminate.
    - unfold providers.marshalChat in Hrun. destruct data; try discriminate.
      injection Hrun as <- _. eexists; split; [reflexivity|].
      now rewrite lookup_insert_ne, lookup_insert_eq by done.
    - unfold providers.marshalVision in Hrun. destruct data as [|d| | |]; try discriminate.
      destruct (List.length (providers.deref h (providers.Messages d)) =? 0)%nat;
        [discriminate|].
      destruct (List.length (providers.Images d) =? 0)%nat; [discriminate|].
      destruct (providers.deref h (providers.Messages d) !! _) as [message|];
        [|discriminate].
      destruct (providers.Content message); try discriminate.
      destruct (providers.make h _) as [dst h1].
      injection Hrun as <- _. eexists; split; [reflexivity|].
      now rewrite lookup_insert_ne, lookup_insert_eq by done.
    - unfold providers.marshalTools in Hrun. destruct data; try discriminate.
      injection Hrun as <- _. eexists; split; [reflexivity|].
      now rewrite !lookup_insert_ne, lookup_insert_eq by done.
    - unfold providers.marshalEmbeddings in Hrun. destruct data; try discriminate.
      injection Hrun as <- _. eexists; split; [reflexivity|].
      now rewrite lookup_insert_ne, lookup_insert_eq by done. }
  destruct Hshape as (combined & -> & Hmodel).
  destruct (marshaled_object combined (extras.optionsOf data))
    as (obj & Hobj & Hopts & Hrest).
  exists obj. split; [exact Hobj|]. split; [exact Hopts|].
  intros Hno. now rewrite (Hrest "model" Hno), Hmodel.
Qed.

Lemma Marshal_options_at_root_witness :
  exists obj,
    gojson.Marshal
      (gojson.Map (<["model" := gojson.Str "override"]>
                   (<["input" := gojson.Str "text"]> ∅)))
    = gojson.JObject obj
    /\ (forall k v,
          extras.optionsOf
            (providers.PEmbeddingsData
               {| providers.Emb_Model := "m"; providers.Emb_Input := gojson.Str "text";
                  providers.Emb_Options := <["model" := gojson.Str "override"]> ∅ |})
          !! k = Some v ->
          obj !! k = Some (gojson.Marshal v))
    /\ (extras.optionsOf
          (providers.PEmbeddingsData
             {| providers.Emb_Model := "m"; providers.Emb_Input := gojson.Str "text";
                providers.Emb_Options := <["model" := gojson.Str "override"]> ∅ |})
        !! "model" = None ->
        obj !! "model"
        = Some (gojson.JString
                  (extras.modelOf
                     (providers.PEmbeddingsData
                        {| providers.Emb_Model := "m";
                           providers.Emb_Input := gojson.Str "text";
                           providers.Emb_Options :=
                             <["model" := gojson.Str "override"]> ∅ |})))).
Proof.
  apply (Marshal_options_at_root protocol.Embeddings ∅ ∅
           (providers.PEmbeddingsData
              {| providers.Emb_Model := "m"; providers.Emb_Input := gojson.Str "text";
                 providers.Emb_Options := <["model" := gojson.Str "override"]> ∅ |})).
  vm_compute. reflexivity.
Defined.

Section ToolsShape.
Import strings protocol gojson providers extras.


End ToolsShape.



(** ** The provider registry *)

Section Registry.
Import strings response providers registry.

Lemma ListProviders_spec (r : factories) (name : string) :
  name ∈ ListProviders r <-> is_Some (r !! name).
Proof.
  unfold ListProviders. rewrite list_elem_of_fmap. split.
  - intros ([k f] & -> & Hin). apply elem_of_map_to_list in Hin. simpl. eauto.
  - intros [f Hf]. exists (name, f). split; [reflexivity|].
    now apply elem_of_map_to_list.
Qed.

End Registry.

(** X23.  [Create] hands the configuration to the factory registered
    last under the configured name and fails with "unknown provider"
    for a name that is not registered; a registration does not disturb
    the other names; [ListProviders] lists exactly the registered
    names; and after the package's [init] the names [ollama] and
    [azure] create through [NewOllama] and [NewAzure]. *)
Theorem Create_dispatches_by_name `{response.Unmarshaler} (r : registry.factories)
    (name : string) (factory : registry.Factory) (c : providers.ProviderConfig) :
  (providers.Cfg_Name c = name ->
     registry.Create (registry.Register r name factory) c = factory c)
  /\ (providers.Cfg_Name c <> name ->
        registry.Create (registry.Register r name factory) c = registry.Create r c)
  /\ (r !! providers.Cfg_Name c = None ->
        registry.Create r c
        = inr (Errorf ("unknown provider: " +:+ providers.Cfg_Name c)))
  /\ (forall n, n ∈ registry.ListProviders (registry.Register r name factory)
                <-> n = name \/ n ∈ registry.ListProviders r)
  /\ registry.Create registry.init c
     = if decide (providers.Cfg_Name c = "azure") then providers.NewAzure c
       else if decide (providers.Cfg_Name c = "ollama") then providers.NewOllama c
       else inr (Errorf ("unknown provider: " +:+ providers.Cfg_Name c)).
Proof.
  unfold registry.Create, registry.Register, registry.init.
  split; [|split; [|split; [|split]]].
  - intros ->. now rewrite lookup_insert_eq.
  - intros Hne. now rewrite lookup_insert_ne by congruence.
  - now intros ->.
  - intros n. rewrite !ListProviders_spec.
    destruct (decide (n = name)) as [->|Hne].
    + rewrite lookup_insert_eq. split; eauto.
    + rewrite lookup_insert_ne by congruence. split; [auto | now intros [?|?]].
  - unfold registry.Register. repeat case_decide.
    + rewrite H0. now rewrite lookup_insert_eq.
    + rewrite lookup_insert_ne by congruence. rewrite H1.
      now rewrite lookup_insert_eq.
    + now rewrite !lookup_insert_ne, lookup_empty by congruence.
Qed.

Lemma Create_dispatches_by_name_witness :
  @registry.Create
    (registry.Register (@registry.init fixtures.bracesUnmarshaler) "ollama"
       (fun _ => inr (Errorf "replaced")))
    (fixtures.ollamaConfig "http://host")
  = inr (Errorf "replaced")
  /\ registry.Create (@registry.init fixtures.bracesUnmarshaler)
       {| providers.Cfg_Name := "openai"; providers.Cfg_BaseURL := "";
          providers.Cfg_Options := ∅ |}
     = inr (Errorf "unknown provider: openai").
Proof.
  split.
  - apply (proj1 (@Create_dispatches_by_name fixtures.bracesUnmarshaler
                    (@registry.init fixtures.bracesUnmarshaler) "ollama"
                    (fun _ => inr (Errorf "replaced"))
                    (fixtures.ollamaConfig "http://host"))).
    reflexivity.
  - apply (proj1 (proj2 (proj2 (@Create_dispatches_by_name fixtures.bracesUnmarshaler
                    (@registry.init fixtures.bracesUnmarshaler) "x"
                    (fun _ => inr (Errorf "x"))
                    {| providers.Cfg_Name := "openai"; providers.Cfg_BaseURL := "";
                       providers.Cfg_Options := ∅ |})))).
    reflexivity.
Defined.

(** ** Merging client configurations *)

(** X24.  [Merge] keeps every numeric setting positive when it was
    positive before, whatever the source holds: zero and negative
    values of the source are ignored.  [Jitter] is always the
    source's.  Merging the same source a second time changes
    nothing. *)
Theorem Merge_keeps_settings_positive (c source : merge.Config) :
  (merge.positive c -> merge.positive (merge.Merge c source))
  /\ config.Jitter (config.Retry (merge.fields (merge.Merge c source)))
     = config.Jitter (config.Retry (merge.fields source))
  /\ merge.Merge (merge.Merge c source) source = merge.Merge c source.
Proof.
  split; [|split; [reflexivity|]].
  - unfold merge.positive, merge.Merge. simpl.
    intros ((Ht & Hr & Hi & Hm & Hp & Hc) & Hf).
    repeat split;
      try (match goal with |- (0 < if (0 <? ?x)%Z then _ else _)%Z =>
             destruct (Z.ltb_spec 0 x); lia end).
    destruct (PrimFloat.ltb 0 (merge.BackoffMultiplier source)) eqn:E;
      [exact E | exact Hf].
  - unfold merge.Merge. simpl.
    repeat match goal with
      | |- context [(0 <? ?x)%Z] => destruct (0 <? x)%Z eqn:?
      | |- context [PrimFloat.ltb 0 ?x] => destruct (PrimFloat.ltb 0 x) eqn:?
      end; reflexivity.
Qed.

Lemma Merge_keeps_settings_positive_witness :
  merge.positive
    (merge.Merge merge.Default
       {| merge.fields :=
            {| config.Timeout := 0;
               config.Retry :=
                 {| config.MaxRetries := 5; config.InitialBackoff := -1;
                    config.MaxBackoff := 0; config.Jitter := false |};
               config.ConnectionPoolSize := 0; config.ConnectionTimeout := 0 |};
          merge.BackoffMultiplier := 0%float |}).
Proof.
  apply (proj1 (Merge_keeps_settings_positive merge.Default _)).
  repeat split.
Defined.

(** ** The stream workers, further *)

Section WorkerFacts.
Import strings protocol response providers context specs.
Context `{Unmarshaler}.

Lemma ParseStreamChunk_unsupported (proto : Protocol) (data : string) :
  SupportsStreaming proto = false ->
  exists e, ParseStreamChunk proto data = inr e.
Proof.
  unfold SupportsStreaming, ParseStreamChunk.
  repeat case_decide; try discriminate; eauto.
Qed.

Lemma Ollama_worker_prefix (ctx : Context) (proto : Protocol) (lines : list string)
    (err : option error) :
  forall k k',
    received (Ollama_worker ctx proto lines err k)
    `prefix_of` received (Ollama_worker Background proto lines err k').
Proof.
  induction lines as [|line lines IH]; intros k k'; simpl.
  - unfold endOfBody. destruct err; simpl; [|reflexivity].
    destruct (DoneAtSend ctx k); simpl; [apply prefix_nil | reflexivity].
  - repeat (destruct (String.eqb _ _); [auto; reflexivity|]).
    destruct (ParseStreamChunk _ _); [|apply IH].
    unfold send. simpl.
    destruct (DoneAtSend ctx k); simpl; [apply prefix_nil|].
    apply prefix_cons, IH.
Qed.

Lemma Azure_worker_prefix (ctx : Context) (proto : Protocol) (lines : list string)
    (err : option error) :
  forall k k',
    received (Azure_worker ctx proto lines err k)
    `prefix_of` received (Azure_worker Background proto lines err k').
Proof.
  induction lines as [|line lines IH]; intros k k'; simpl.
  - unfold endOfBody. destruct err; simpl; [|reflexivity].
    destruct (DoneAtSend ctx k); simpl; [apply prefix_nil | reflexivity].
  - destruct (String.eqb _ _); [apply IH|].
    destruct (HasPrefix _ _); simpl; [|apply IH].
    destruct (String.eqb _ _); [reflexivity|].
    destruct (ParseStreamChunk _ _); [|apply IH].
    unfold send. simpl.
    destruct (DoneAtSend ctx k); simpl; [apply prefix_nil|].
    apply prefix_cons, IH.
Qed.

End WorkerFacts.

(** X25.  Cancellation only cuts a stream short: for every context,
    what a consumer receives from a worker is a prefix of what it
    receives from the same body under a context that is never done;
    no chunk is dropped in the middle, reordered or changed. *)
Theorem workers_cancellation_truncates `{response.Unmarshaler}
    (ctx : context.Context) (proto : protocol.Protocol) (lines : list string)
    (err : option error) :
  providers.received (providers.Ollama_worker ctx proto lines err 0)
  `prefix_of`
  providers.received (providers.Ollama_worker context.Background proto lines err 0)
  /\ providers.received (providers.Azure_worker ctx proto lines err 0)
     `prefix_of`
     providers.received (providers.Azure_worker context.Background proto lines err 0).
Proof. split; [apply Ollama_worker_prefix | apply Azure_worker_prefix]. Qed.

(** X26.  Under a protocol that does not support streaming the chunk
    decoder rejects every payload, so a worker delivers no chunk from
    a body that ends without a read error, whatever its lines. *)
Theorem workers_deliver_nothing_without_streaming `{response.Unmarshaler}
    (ctx : context.Context) (proto : protocol.Protocol) (lines : list string)
    (k : nat) :
  protocol.SupportsStreaming proto = false ->
  providers.received (providers.Ollama_worker ctx proto lines None k) = []
  /\ providers.received (providers.Azure_worker ctx proto lines None k) = [].
Proof.
  intros Hs. split; induction lines as [|line lines IH]; simpl; try reflexivity.
  - repeat (destruct (String.eqb _ _); [auto; reflexivity|]).
    destruct (ParseStreamChunk_unsupported proto
                match strings.CutPrefix (strings.TrimSpace line) "data: " with
                | (after, true) => after
                | (_, false) => strings.TrimSpace line
                end Hs) as [e ->].
    exact IH.
  - destruct (String.eqb _ _); [exact IH|].
    destruct (strings.HasPrefix _ _); simpl; [|exact IH].
    destruct (String.eqb _ _); [reflexivity|].
    destruct (ParseStreamChunk_unsupported proto
                (strings.TrimPrefix (strings.TrimSpace line) "data: ") Hs) as [e ->].
    exact IH.
Qed.

Lemma workers_deliver_nothing_without_streaming_witness :
  providers.received
    (@providers.Ollama_worker fixtures.bracesUnmarshaler context.Background
       protocol.Embeddings [fixtures.dataLine "{chunk1}"; fixtures.dataLine "{chunk2}"]
       None 0) = []
  /\ providers.received
       (@providers.Azure_worker fixtures.bracesUnmarshaler context.Background
          protocol.Embeddings
          [fixtures.dataLine "{chunk1}"; fixtures.dataLine "{chunk2}"] None 0) = [].
Proof.
  apply (@workers_deliver_nothing_without_streaming fixtures.bracesUnmarshaler).
  reflexivity.
Defined.

(** X27.  The bytes of a body after its last line feed are never
    decoded: on a 200 response whose body is the given lines, each
    ended by a line feed, followed by [tail], both workers run on the
    lines alone, so a last chunk that is not followed by a line feed
    is lost. *)
Theorem ProcessStreamResponse_drops_unterminated_tail `{response.Unmarshaler}
    (ctx : context.Context) (proto : protocol.Protocol) (lines : list string)
    (tail status : string) (err : option error) :
  Forall (fun l => specs.hasNewline l = false) lines ->
  specs.hasNewline tail = false ->
  let resp :=
    {| http.StatusCode := http.StatusOK; http.Status := status;
       http.RespBody := {| http.data := specs.bodyOf lines tail;
                           http.readErr := err |} |} in
  providers.Ollama_ProcessStreamResponse ctx resp proto
  = inl (providers.Ollama_worker ctx proto
           (map (fun l => l +:+ fixtures.newline) lines) err 0)
  /\ providers.Azure_ProcessStreamResponse ctx resp proto
     = inl (providers.Azure_worker ctx proto
              (map (fun l => l +:+ fixtures.newline) lines) err 0).
Proof.
  intros Hl Ht resp.
  unfold providers.Ollama_ProcessStreamResponse, providers.Azure_ProcessStreamResponse.
  subst resp. simpl. now rewrite (readLines_bodyOf lines tail Hl Ht).
Qed.

Lemma ProcessStreamResponse_drops_unterminated_tail_witness :
  @providers.Ollama_ProcessStreamResponse fixtures.bracesUnmarshaler
    context.Background
    {| http.StatusCode := http.StatusOK; http.Status := "200 OK";
       http.RespBody :=
         {| http.data := specs.bodyOf ["data: {chunk1}"] "data: {chunk2}";
            http.readErr := None |} |}
    protocol.Chat
  = inl {| providers.received := [fixtures.chunk "chunk1"];
           providers.exit := providers.ExitEOF |}.
Proof.
  apply (proj1 (@ProcessStreamResponse_drops_unterminated_tail
                  fixtures.bracesUnmarshaler context.Background protocol.Chat
                  ["data: {chunk1}"] "data: {chunk2}" "200 OK" None
                  ltac:(repeat constructor) eq_refl)).
Defined.



(** ** The forwarding goroutine *)


(** ** Construction of the Ollama provider *)

(** X30.  [NewOllama] never fails, and the base URL of the provider it
    builds always ends in [/v1]: a configured URL that ends so is kept
    as it is, and any other gets [/v1] appended after one trailing
    slash, and no more than one, is removed. *)
Theorem NewOllama_base_URL_ends_in_v1 `{response.Unmarshaler}
    (c : providers.ProviderConfig) :
  exists p,
    providers.NewOllama c = inl p
    /\ strings.HasSuffix (providers.BaseURL p) "/v1" = true
    /\ providers.Name p = providers.Cfg_Name c
    /\ (strings.HasSuffix (providers.Cfg_BaseURL c) "/v1" = true ->
          providers.BaseURL p = providers.Cfg_BaseURL c)
    /\ (forall b, providers.Cfg_BaseURL c = b +:+ "//" ->
          providers.BaseURL p = b +:+ "//v1").
Proof.
  unfold providers.NewOllama. eexists. split; [reflexivity|]. simpl.
  destruct (strings.HasSuffix (providers.Cfg_BaseURL c) "/v1") eqn:E; simpl.
  - repeat split; auto.
    intros b Hb. rewrite Hb in E.
    pose proof (HasSuffix_last_byte (b +:+ "/") "/v" "/" "1" ltac:(discriminate)) as E'.
    rewrite <- append_assoc in E'. change ("/v" +:+ "1") with "/v1" in E'.
    change ("/" +:+ "/") with "//" in E'. congruence.
  - repeat split; auto.
    + apply HasSuffix_append.
    + discriminate.
    + intros b ->. change "//" with ("/" +:+ "/").
      rewrite append_assoc, TrimSuffix_append, <- append_assoc. reflexivity.
Qed.
